(** * rob.numbox: the JSUI number box, its value and interaction state machine

    A shallow embedding of the widget script.  Two near-duplicate variants of
    the script exist in the repository:

    - [V1]: [jsui.numbox.js], dated 22/06/2025;
    - [V2]: the revision dated 30/06/2025, which adds the
      amplitude conversion under the decibel style, the boundary recovery of a
      drag, arrow-key stepping, [notifyclients()], [setvalueof] and the
      save/restore protocol.

    Functions that are textually the same in both variants are embedded once;
    the others take the variant as their first argument.

    Modelling choices.

    - A JavaScript number is a real ([R]): [Math.max], [Math.min], [Math.abs]
      and the comparisons are exact on finite doubles, and [Math.pow] is read
      as the real power.  NaN only arises from [parseFloat], whose result is
      an [option R].
    - The script's global variables form the record [numbox]; the attributes
      of the hosting [box] (the inspector's store) form the record
      [box_attrs], read through [box.getattr].
    - Calls into the host ([outlet], [mgraphics.redraw], [max.pupdate],
      [Task.schedule], ...) are recorded, in order, as a list of [event]s.
    - A handler is a computation in the monad [M]: it threads the globals and
      appends to the event list. *)

From Stdlib Require Import Reals Lra ZArith String Ascii List Bool DecimalString.
Import ListNotations.

Open Scope R_scope.

(** ** JavaScript built-ins used by the script *)

Module JS.

Definition Math_max (a b : R) : R := Rmax a b.
Definition Math_min (a b : R) : R := Rmin a b.
Definition Math_abs (a : R) : R := Rabs a.

(** [Math.pow(b, e)] for a positive base. *)
Definition Math_pow (b e : R) : R := Rpower b e.

(** [Math.round(x)]: the nearest integer, a tie going upwards. *)
Definition Math_round (x : R) : Z := Zfloor (x + / 2).

(** [a !== b], [a <= b], [a > b] and [a < b] on numbers. *)
Definition strict_neq (a b : R) : bool := if Req_dec_T a b then false else true.
Definition leb (a b : R) : bool := if Rle_dec a b then true else false.
Definition gtb (a b : R) : bool := if Rgt_dec a b then true else false.
Definition ltb (a b : R) : bool := if Rlt_dec a b then true else false.

(** Truthiness of a number used as a condition ([if (activeState)]). *)
Definition truthy (z : Z) : bool := negb (z =? 0)%Z.

(** [n.toString()] for an integral number. *)
Definition toString (n : Z) : string := NilZero.string_of_int (Z.to_int n).

Fixpoint zeros (n : nat) : string :=
  match n with
  | O => EmptyString
  | S k => String "0" (zeros k)
  end.

(** [x.toFixed(f)]: with [n] the integer for which [n / 10^f] is nearest to
    [|x|] (the larger one on a tie), the digits of [n], padded with zeros to
    at least [f + 1] digits, with a point before the last [f] of them. *)
Definition toFixed (f : nat) (x : R) : string :=
  let n := Zfloor (Rabs x * 10 ^ f + / 2) in
  let d := toString n in
  let m := (zeros (S f - String.length d) ++ d)%string in
  let k := (String.length m - f)%nat in
  ((if Rlt_dec x 0 then "-" else EmptyString)
     ++ substring 0 k m
     ++ (if (f =? 0)%nat then EmptyString else "." ++ substring k f m))%string.

Definition digit_val (c : ascii) : option Z :=
  let n := N_of_ascii c in
  if ((48 <=? n) && (n <=? 57))%N then Some (Z.of_N n - 48)%Z else None.

Fixpoint read_digits (s : string) (acc : Z) (n : nat) : Z * nat * string :=
  match s with
  | String c s' =>
      match digit_val c with
      | Some d => read_digits s' (10 * acc + d)%Z (S n)
      | None => (acc, n, s)
      end
  | EmptyString => (acc, n, s)
  end.

(** [parseFloat(s)] on the decimal forms an edit buffer can hold (an
    optional sign, digits, an optional point and digits; the longest such
    prefix is read).  [None] is NaN. *)
Definition parseFloat (s : string) : option R :=
  let '(neg, s1) :=
    match s with
    | String "-" t => (true, t)
    | String "+" t => (false, t)
    | _ => (false, s)
    end in
  let '(ip, ni, s2) := read_digits s1 0%Z 0%nat in
  let '(fp, nf, _) :=
    match s2 with
    | String "." t => read_digits t 0%Z 0%nat
    | _ => (0%Z, 0%nat, s2)
    end in
  if ((ni =? 0) && (nf =? 0))%nat then None
  else
    let a := IZR ip + IZR fp / 10 ^ nf in
    Some (if neg then - a else a).

Definition lower_ascii (c : ascii) : ascii :=
  let n := N_of_ascii c in
  if ((65 <=? n) && (n <=? 90))%N then ascii_of_N (n + 32) else c.

(** [s.toLowerCase()] (on the ASCII letters). *)
Fixpoint toLowerCase (s : string) : string :=
  match s with
  | EmptyString => EmptyString
  | String c s' => String (lower_ascii c) (toLowerCase s')
  end.

(** [String.fromCharCode(c)] for a key code. *)
Definition fromCharCode (c : Z) : string :=
  String (ascii_of_N (Z.to_N c)) EmptyString.

(** [s.slice(0, -1)]. *)
Definition slice_init (s : string) : string :=
  substring 0 (String.length s - 1) s.

End JS.

Import JS.

(** ** The host: attributes of the box, and calls into the host *)

(** The value of the [jsarguments] attribute: nothing (or a value that is
    neither a string nor array-like), a single string, or an array, each
    element given by the string its [toString()] yields. *)
Inductive jsargs :=
| ArgsNone
| ArgsString (s : string)
| ArgsArray (l : list string).

(** What [box.getattr] reads.  A [None] is [null] or [undefined]. *)
Record box_attrs := {
  _parameter_range : option (list R);
  _parameter_initial_enable : bool;
  _parameter_initial : option R;
  _parameter_unitstyle : option Z;
  _parameter_type : option Z;
  _parameter_invisible : option Z;
  jsarguments : jsargs
}.

(** The deferred tasks the script creates. *)
Inductive task :=
| FocusCheck        (* the closure of [globalMouse] *)
| ToggleCursor.     (* [cursorTimer] *)

Inductive event :=
| Outlet0 (v : R)                 (* [outlet(0, outputValue)] *)
| Outlet1Bang                     (* [outlet(1, "bang")] *)
| Redraw                          (* [mgraphics.redraw()] *)
| NotifyClients                   (* [notifyclients()] *)
| HideCursor                      (* [max.hidecursor()] *)
| ShowCursor                      (* [max.showcursor()] *)
| PUpdate (x y : R)               (* [max.pupdate(x, y)] *)
| Schedule (t : task) (ms : Z)    (* [t.schedule(ms)] *)
| Cancel (t : task)               (* [t.cancel()] *)
| Post (msg : string).            (* [post(...)] *)

Inductive variant := V1 | V2.

(** ** The script's global variables *)

Record numbox := {
  currentValue : R;
  minValue : R;
  maxValue : R;
  initialValue : R;
  textJustification : string;
  activeState : Z;
  normalStepSize : R;
  fineStepSize : R;
  displayText : string;
  outputValue : R;
  isDragging : bool;
  dragStartY : R;
  dragStartValue : R;
  lastDragY : R;
  cursorOrigin : R * R;
  isEditing : bool;
  editText : string;
  hasFocus : bool;
  showCursor : bool;
  clickedInside : bool
}.

Definition set_currentValue (x : R) (s : numbox) : numbox :=
  let '(Build_numbox _ a2 a3 a4 a5 a6 a7 a8 a9 a10 a11 a12 a13 a14 a15 a16 a17 a18 a19 a20) := s in
  Build_numbox x a2 a3 a4 a5 a6 a7 a8 a9 a10 a11 a12 a13 a14 a15 a16 a17 a18 a19 a20.
Definition set_minValue (x : R) (s : numbox) : numbox :=
  let '(Build_numbox a1 _ a3 a4 a5 a6 a7 a8 a9 a10 a11 a12 a13 a14 a15 a16 a17 a18 a19 a20) := s in
  Build_numbox a1 x a3 a4 a5 a6 a7 a8 a9 a10 a11 a12 a13 a14 a15 a16 a17 a18 a19 a20.
Definition set_maxValue (x : R) (s : numbox) : numbox :=
  let '(Build_numbox a1 a2 _ a4 a5 a6 a7 a8 a9 a10 a11 a12 a13 a14 a15 a16 a17 a18 a19 a20) := s in
  Build_numbox a1 a2 x a4 a5 a6 a7 a8 a9 a10 a11 a12 a13 a14 a15 a16 a17 a18 a19 a20.
Definition set_initialValue (x : R) (s : numbox) : numbox :=
  let '(Build_numbox a1 a2 a3 _ a5 a6 a7 a8 a9 a10 a11 a12 a13 a14 a15 a16 a17 a18 a19 a20) := s in
  Build_numbox a1 a2 a3 x a5 a6 a7 a8 a9 a10 a11 a12 a13 a14 a15 a16 a17 a18 a19 a20.
Definition set_textJustification (x : string) (s : numbox) : numbox :=
  let '(Build_numbox a1 a2 a3 a4 _ a6 a7 a8 a9 a10 a11 a12 a13 a14 a15 a16 a17 a18 a19 a20) := s in
  Build_numbox a1 a2 a3 a4 x a6 a7 a8 a9 a10 a11 a12 a13 a14 a15 a16 a17 a18 a19 a20.
Definition set_activeState (x : Z) (s : numbox) : numbox :=
  let '(Build_numbox a1 a2 a3 a4 a5 _ a7 a8 a9 a10 a11 a12 a13 a14 a15 a16 a17 a18 a19 a20) := s in
  Build_numbox a1 a2 a3 a4 a5 x a7 a8 a9 a10 a11 a12 a13 a14 a15 a16 a17 a18 a19 a20.
Definition set_normalStepSize (x : R) (s : numbox) : numbox :=
  let '(Build_numbox a1 a2 a3 a4 a5 a6 _ a8 a9 a10 a11 a12 a13 a14 a15 a16 a17 a18 a19 a20) := s in
  Build_numbox a1 a2 a3 a4 a5 a6 x a8 a9 a10 a11 a12 a13 a14 a15 a16 a17 a18 a19 a20.
Definition set_fineStepSize (x : R) (s : numbox) : numbox :=
  let '(Build_numbox a1 a2 a3 a4 a5 a6 a7 _ a9 a10 a11 a12 a13 a14 a15 a16 a17 a18 a19 a20) := s in
  Build_numbox a1 a2 a3 a4 a5 a6 a7 x a9 a10 a11 a12 a13 a14 a15 a16 a17 a18 a19 a20.
Definition set_displayText (x : string) (s : numbox) : numbox :=
  let '(Build_numbox a1 a2 a3 a4 a5 a6 a7 a8 _ a10 a11 a12 a13 a14 a15 a16 a17 a18 a19 a20) := s in
  Build_numbox a1 a2 a3 a4 a5 a6 a7 a8 x a10 a11 a12 a13 a14 a15 a16 a17 a18 a19 a20.
Definition set_outputValue (x : R) (s : numbox) : numbox :=
  let '(Build_numbox a1 a2 a3 a4 a5 a6 a7 a8 a9 _ a11 a12 a13 a14 a15 a16 a17 a18 a19 a20) := s in
  Build_numbox a1 a2 a3 a4 a5 a6 a7 a8 a9 x a11 a12 a13 a14 a15 a16 a17 a18 a19 a20.
Definition set_isDragging (x : bool) (s : numbox) : numbox :=
  let '(Build_numbox a1 a2 a3 a4 a5 a6 a7 a8 a9 a10 _ a12 a13 a14 a15 a16 a17 a18 a19 a20) := s in
  Build_numbox a1 a2 a3 a4 a5 a6 a7 a8 a9 a10 x a12 a13 a14 a15 a16 a17 a18 a19 a20.
Definition set_dragStartY (x : R) (s : numbox) : numbox :=
  let '(Build_numbox a1 a2 a3 a4 a5 a6 a7 a8 a9 a10 a11 _ a13 a14 a15 a16 a17 a18 a19 a20) := s in
  Build_numbox a1 a2 a3 a4 a5 a6 a7 a8 a9 a10 a11 x a13 a14 a15 a16 a17 a18 a19 a20.
Definition set_dragStartValue (x : R) (s : numbox) : numbox :=
  let '(Build_numbox a1 a2 a3 a4 a5 a6 a7 a8 a9 a10 a11 a12 _ a14 a15 a16 a17 a18 a19 a20) := s in
  Build_numbox a1 a2 a3 a4 a5 a6 a7 a8 a9 a10 a11 a12 x a14 a15 a16 a17 a18 a19 a20.
Definition set_lastDragY (x : R) (s : numbox) : numbox :=
  let '(Build_numbox a1 a2 a3 a4 a5 a6 a7 a8 a9 a10 a11 a12 a13 _ a15 a16 a17 a18 a19 a20) := s in
  Build_numbox a1 a2 a3 a4 a5 a6 a7 a8 a9 a10 a11 a12 a13 x a15 a16 a17 a18 a19 a20.
Definition set_cursorOrigin (x : R * R) (s : numbox) : numbox :=
  let '(Build_numbox a1 a2 a3 a4 a5 a6 a7 a8 a9 a10 a11 a12 a13 a14 _ a16 a17 a18 a19 a20) := s in
  Build_numbox a1 a2 a3 a4 a5 a6 a7 a8 a9 a10 a11 a12 a13 a14 x a16 a17 a18 a19 a20.
Definition set_isEditing (x : bool) (s : numbox) : numbox :=
  let '(Build_numbox a1 a2 a3 a4 a5 a6 a7 a8 a9 a10 a11 a12 a13 a14 a15 _ a17 a18 a19 a20) := s in
  Build_numbox a1 a2 a3 a4 a5 a6 a7 a8 a9 a10 a11 a12 a13 a14 a15 x a17 a18 a19 a20.
Definition set_editText (x : string) (s : numbox) : numbox :=
  let '(Build_numbox a1 a2 a3 a4 a5 a6 a7 a8 a9 a10 a11 a12 a13 a14 a15 a16 _ a18 a19 a20) := s in
  Build_numbox a1 a2 a3 a4 a5 a6 a7 a8 a9 a10 a11 a12 a13 a14 a15 a16 x a18 a19 a20.
Definition set_hasFocus (x : bool) (s : numbox) : numbox :=
  let '(Build_numbox a1 a2 a3 a4 a5 a6 a7 a8 a9 a10 a11 a12 a13 a14 a15 a16 a17 _ a19 a20) := s in
  Build_numbox a1 a2 a3 a4 a5 a6 a7 a8 a9 a10 a11 a12 a13 a14 a15 a16 a17 x a19 a20.
Definition set_showCursor (x : bool) (s : numbox) : numbox :=
  let '(Build_numbox a1 a2 a3 a4 a5 a6 a7 a8 a9 a10 a11 a12 a13 a14 a15 a16 a17 a18 _ a20) := s in
  Build_numbox a1 a2 a3 a4 a5 a6 a7 a8 a9 a10 a11 a12 a13 a14 a15 a16 a17 a18 x a20.
Definition set_clickedInside (x : bool) (s : numbox) : numbox :=
  let '(Build_numbox a1 a2 a3 a4 a5 a6 a7 a8 a9 a10 a11 a12 a13 a14 a15 a16 a17 a18 a19 _) := s in
  Build_numbox a1 a2 a3 a4 a5 a6 a7 a8 a9 a10 a11 a12 a13 a14 a15 a16 a17 a18 a19 x.

(** The globals as the script initialises them.  [V2] starts at -10 and
    declares the step sizes ([V1] has them as literals in [ondrag]);
    [displayText] and [outputValue] are given the values [V1] declares ([V2]
    leaves them to the first [updateDisplay]). *)
Definition initial (v : variant) : numbox := {|
  currentValue := match v with V1 => 0 | V2 => -10 end;
  minValue := -100;
  maxValue := 100;
  initialValue := 0;
  textJustification := "centre";
  activeState := 1;
  normalStepSize := 5 / 10;
  fineStepSize := 2 / 100;
  displayText := toFixed 1 (match v with V1 => 0 | V2 => -10 end);
  outputValue := match v with V1 => 0 | V2 => -10 end;
  isDragging := false;
  dragStartY := 0;
  dragStartValue := 0;
  lastDragY := 0;
  cursorOrigin := (0, 0);
  isEditing := false;
  editText := EmptyString;
  hasFocus := false;
  showCursor := true;
  clickedInside := false
|}.

(** ** The handler monad: globals threaded, host calls logged *)

Definition M (A : Type) : Type := numbox -> A * numbox * list event.

Definition ret {A} (a : A) : M A := fun s => (a, s, []).

Definition bind {A B} (m : M A) (k : A -> M B) : M B :=
  fun s =>
    let '(a, s1, e1) := m s in
    let '(b, s2, e2) := k a s1 in
    (b, s2, e1 ++ e2).

Definition get : M numbox := fun s => (s, s, []).
Definition modify (f : numbox -> numbox) : M unit := fun s => (tt, f s, []).
Definition call (e : event) : M unit := fun s => (tt, s, [e]).
Definition skip : M unit := ret tt.
Definition when (b : bool) (m : M unit) : M unit := if b then m else skip.

Declare Scope js_scope.
Delimit Scope js_scope with js.
Notation "x <- m ;; k" := (bind m (fun x => k))
  (at level 61, m at next level, right associativity) : js_scope.
Notation "m ;; k" := (bind m (fun _ => k))
  (at level 61, right associativity) : js_scope.
Open Scope js_scope.

(** The globals and the host calls a handler leaves behind. *)
Definition state_of {A} (r : A * numbox * list event) : numbox := snd (fst r).
Definition trace_of {A} (r : A * numbox * list event) : list event := snd r.

(** The values sent to the primary outlet, in order. *)
Fixpoint outlet0 (tr : list event) : list R :=
  match tr with
  | [] => []
  | Outlet0 x :: tr' => x :: outlet0 tr'
  | _ :: tr' => outlet0 tr'
  end.

(** ** The script *)

Definition dquote : string := String (ascii_of_N 34) EmptyString.
Definition nl : string := String (ascii_of_N 10) EmptyString.

Section Script.

(** Which of the two variants of the script runs. *)
Variable v : variant.

(** The attributes of the hosting box, as [box.getattr] reads them during
    the handler. *)
Variable box : box_attrs.

(** [notifyclients()]: only [V2] calls it. *)
Definition notifyclients : M unit :=
  match v with
  | V1 => skip
  | V2 => call NotifyClients
  end.

(** [if (activeState) { outlet(0, outputValue); }] *)
Definition outlet_if_active : M unit :=
  s <- get ;;
  when (truthy (activeState s)) (call (Outlet0 (outputValue s))).

Definition getUnitStyle : Z :=
  match _parameter_unitstyle box with
  | Some u => u
  | None => 0%Z
  end.

Definition dbtoa (dB : R) : R := Math_pow 10 (dB / 20).

Definition show (text : string) (out : R) : M unit :=
  modify (set_displayText text) ;;
  modify (set_outputValue out).

Definition updateDisplay : M unit :=
  s <- get ;;
  let currentValue := currentValue s in
  if isEditing s then
    show (editText s) currentValue
  else
    match getUnitStyle with
    | 0%Z => show (toString (Math_round currentValue)) currentValue
    | 1%Z => show (toFixed 2 currentValue) currentValue
    | 2%Z => show (toFixed 1 currentValue ++ " ms") currentValue
    | 3%Z => show (toString (Math_round currentValue) ++ " Hz") currentValue
    | 4%Z =>
        if leb currentValue (-80) then
          show "-inf" 0
        else
          show (toFixed 1 currentValue ++ " dB")
               match v with
               | V1 => currentValue
               | V2 => dbtoa currentValue
               end
    | 5%Z => show (toString (Math_round currentValue) ++ " %") currentValue
    | 6%Z => show (toFixed 2 currentValue) currentValue
    | 7%Z => show (toFixed 1 currentValue ++ " st") currentValue
    | 8%Z => show (toString (Math_round currentValue)) currentValue
    | 9%Z => show (toFixed 2 currentValue) currentValue
    | 10%Z => show (toFixed 2 currentValue) currentValue
    | _ => show (toFixed 1 currentValue) currentValue
    end.

Definition updateRange : M unit :=
  match _parameter_range box with
  | Some (r0 :: r1 :: _) =>
      modify (set_minValue r0) ;;
      modify (set_maxValue r1) ;;
      s <- get ;;
      let newValue := Math_max (minValue s) (Math_min (maxValue s) (currentValue s)) in
      when (strict_neq newValue (currentValue s))
        (modify (set_currentValue newValue) ;;
         updateDisplay ;;
         outlet_if_active)
  | _ => skip
  end.

Definition updateInitialValue : M unit :=
  if _parameter_initial_enable box then
    match _parameter_initial box with
    | Some initialAttr => modify (set_initialValue initialAttr)
    | None => skip
    end
  else
    modify (set_initialValue 0).

(** *** Justification from the jsarguments *)

Definition getJSArguments : list string :=
  match jsarguments box with
  | ArgsNone => []
  | ArgsString s => if (s =? EmptyString)%string then [] else [s]
  | ArgsArray l => l
  end.

Fixpoint scan_args (argsArray foundJustifications : list string) : list string :=
  match argsArray with
  | [] => foundJustifications
  | a :: rest =>
      let arg := toLowerCase a in
      if ((arg =? "left") || (arg =? "centre") || (arg =? "center") || (arg =? "right"))%string
      then
        let arg := if (arg =? "center")%string then "centre"%string else arg in
        scan_args rest (foundJustifications ++ [arg])
      else scan_args rest foundJustifications
  end.

Definition parseJustificationArgs : M unit :=
  let foundJustifications := scan_args getJSArguments [] in
  if (1 <? List.length foundJustifications)%nat then
    call (Post ("conflict found: justifications conflict, defaulted to "
                  ++ dquote ++ "centre" ++ dquote ++ nl)) ;;
    modify (set_textJustification "centre")
  else if (List.length foundJustifications =? 1)%nat then
    modify (set_textJustification (hd EmptyString foundJustifications))
  else
    modify (set_textJustification "centre").

Definition active (state : Z) : M unit :=
  let newState := if truthy state then 1%Z else 0%Z in
  s <- get ;;
  let wasInactive := (activeState s =? 0)%Z in
  modify (set_activeState newState) ;;
  when (wasInactive && (newState =? 1)%Z) (call (Outlet0 (outputValue s))) ;;
  call Redraw.

(** *** Messages *)

Definition msg_float (x : R) : M unit :=
  updateRange ;;
  updateInitialValue ;;
  s <- get ;;
  modify (set_currentValue (Math_max (minValue s) (Math_min (maxValue s) x))) ;;
  updateDisplay ;;
  call Redraw ;;
  notifyclients ;;
  outlet_if_active.

(** [V2] only. *)
Definition getvalueof : M R :=
  s <- get ;;
  ret (currentValue s).

(** [V2] only. *)
Definition setvalueof (value : R) : M unit :=
  updateRange ;;
  s <- get ;;
  modify (set_currentValue (Math_max (minValue s) (Math_min (maxValue s) value))) ;;
  updateDisplay ;;
  call Redraw ;;
  outlet_if_active.

(** *** Editing *)

Definition commitEdit : M unit :=
  s <- get ;;
  when (isEditing s)
    (call (Cancel ToggleCursor) ;;
     match parseFloat (editText s) with
     | Some newValue =>
         let newValue := Math_max (minValue s) (Math_min (maxValue s) newValue) in
         modify (set_currentValue newValue) ;;
         updateDisplay ;;
         notifyclients ;;
         outlet_if_active
     | None => skip
     end ;;
     modify (set_isEditing false) ;;
     updateDisplay ;;
     call Redraw).

Definition cancelEdit : M unit :=
  s <- get ;;
  when (isEditing s)
    (call (Cancel ToggleCursor) ;;
     modify (set_isEditing false) ;;
     modify (set_editText EmptyString) ;;
     updateDisplay ;;
     call Redraw).

Definition toggleCursor : M unit :=
  s <- get ;;
  when (isEditing s)
    (modify (set_showCursor (negb (showCursor s))) ;;
     call Redraw ;;
     call (Schedule ToggleCursor 500)).

(** *** Pointer *)

Definition onclick (x y : R) (button cmd shift capslock option ctrl : bool) : M unit :=
  modify (set_clickedInside true) ;;
  modify (set_hasFocus true) ;;
  call Redraw ;;
  modify (set_isDragging true) ;;
  modify (set_dragStartY y) ;;
  modify (set_lastDragY y) ;;
  s <- get ;;
  modify (set_dragStartValue (currentValue s)) ;;
  updateRange ;;
  updateInitialValue ;;
  call Outlet1Bang.

Definition ondblclick (x y : R) (button cmd shift capslock option ctrl : bool) : M unit :=
  updateInitialValue ;;
  s <- get ;;
  modify (set_currentValue (initialValue s)) ;;
  updateDisplay ;;
  call Redraw ;;
  notifyclients ;;
  outlet_if_active.

(** The step of a drag: the literals of [V1], the step-size globals of [V2]. *)
Definition stepSize (shift : bool) (s : numbox) : R :=
  match v with
  | V1 => if shift then 2 / 100 else 5 / 10
  | V2 => if shift then fineStepSize s else normalStepSize s
  end.

(** The part of [ondrag] after [deltaY] is known. *)
Definition drag_apply (deltaY y : R) (button shift : bool) : M unit :=
  s <- get ;;
  let newValue := currentValue s + deltaY * stepSize shift s in
  let newValue := Math_max (minValue s) (Math_min (maxValue s) newValue) in
  when (strict_neq newValue (currentValue s))
    (modify (set_currentValue newValue) ;;
     updateDisplay ;;
     call Redraw ;;
     notifyclients ;;
     outlet_if_active) ;;
  modify (set_lastDragY y) ;;
  when (negb button)
    (call (PUpdate (fst (cursorOrigin s)) (snd (cursorOrigin s))) ;;
     call ShowCursor ;;
     modify (set_isDragging false)).

Definition ondrag (x y : R) (button cmd shift capslock option ctrl : bool) : M unit :=
  s <- get ;;
  when (isDragging s)
    (call HideCursor ;;
     match v with
     | V1 => drag_apply (lastDragY s - y) y button shift
     | V2 =>
         if gtb (Math_abs (lastDragY s)) 30 then
           call (PUpdate (fst (cursorOrigin s)) (snd (cursorOrigin s))) ;;
           modify (set_lastDragY y)
         else
           drag_apply (lastDragY s - y) y button shift
     end).

Definition globalMouse (leftClick : bool) (globalX globalY : R) : M unit :=
  modify (set_cursorOrigin (globalX, globalY)) ;;
  s <- get ;;
  when (leftClick && hasFocus s) (call (Schedule FocusCheck 1)).

(** The body of the task [globalMouse] schedules. *)
Definition focusCheck : M unit :=
  s <- get ;;
  when (negb (clickedInside s))
    (modify (set_hasFocus false) ;;
     call Redraw ;;
     when (isEditing s) commitEdit) ;;
  modify (set_clickedInside false).

Definition onidleout (x y : R) : M unit :=
  s <- get ;;
  when (isDragging s)
    (modify (set_isDragging false) ;;
     call ShowCursor).

(** *** Keys *)

Definition isNumericKey (charCode : Z) : bool :=
  (((48 <=? charCode) && (charCode <=? 57)) || (charCode =? 46) || (charCode =? 45))%Z.

Definition isValidChar (charCode : Z) : bool :=
  (((48 <=? charCode) && (charCode <=? 57))
   || (charCode =? 46) || (charCode =? 45) || (charCode =? 127)
   || (charCode =? 13) || (charCode =? 3) || (charCode =? 27))%Z.

(** The arrow-key branch of [keyInput] ([V2]). *)
Definition arrowKey (charCode : Z) : M unit :=
  s <- get ;;
  when (isEditing s) commitEdit ;;
  let step := if (charCode =? 30)%Z then normalStepSize s else - normalStepSize s in
  updateRange ;;
  s <- get ;;
  let newValue := Math_max (minValue s) (Math_min (maxValue s) (currentValue s + step)) in
  when (strict_neq newValue (currentValue s))
    (modify (set_currentValue newValue) ;;
     updateDisplay ;;
     call Redraw ;;
     notifyclients ;;
     outlet_if_active).

Definition keyInput (c : Z) : M unit :=
  s <- get ;;
  if negb (hasFocus s) then skip
  else
    let charCode := c in
    let isArrowKey :=
      match v with
      | V1 => false
      | V2 => ((charCode =? 30) || (charCode =? 31))%Z
      end in
    if isArrowKey then arrowKey charCode
    else if negb (isValidChar charCode) then skip
    else
      when (isNumericKey charCode)
        (if negb (isEditing s) then
           modify (set_isEditing true) ;;
           modify (set_editText (fromCharCode charCode)) ;;
           modify (set_showCursor true) ;;
           call (Schedule ToggleCursor 500) ;;
           updateDisplay ;;
           call Redraw
         else
           modify (set_editText (editText s ++ fromCharCode charCode)) ;;
           updateDisplay ;;
           call Redraw) ;;
      s <- get ;;
      when (isEditing s)
        (if (charCode =? 127)%Z then
           when (0 <? String.length (editText s))%nat
             (modify (set_editText (slice_init (editText s))) ;;
              updateDisplay ;;
              call Redraw)
         else if ((charCode =? 13) || (charCode =? 3))%Z then commitEdit
         else if (charCode =? 27)%Z then cancelEdit
         else skip).

(** *** Attribute changes *)

(** [V2] only: the type is read and a note is posted when it is not float;
    nothing is written. *)
Definition updateParameterType : M unit :=
  match _parameter_type box with
  | Some 0%Z => skip
  | _ =>
      call (Post ("Set _parameter_type to 0 (float) - nothing else supported yet" ++ nl))
  end.

Definition handleAttributeChange (attrname : string) : M unit :=
  (if (attrname =? "_parameter_type")%string then
     match v with
     | V1 => skip
     | V2 => updateParameterType
     end
   else if (attrname =? "_parameter_unitstyle")%string then updateDisplay
   else if (attrname =? "_parameter_range")%string then updateRange
   else if ((attrname =? "_parameter_initial_enable")
            || (attrname =? "_parameter_initial"))%string then updateInitialValue
   else if (attrname =? "jsarguments")%string then parseJustificationArgs
   else skip) ;;
  call Redraw.

(** *** Persistence ([V2]) *)

(** Of the messages [save] embeds, [restoreInternalState] is the one that
    acts on the globals; the others write attributes back into the box,
    each from a task of its own, 10 to 60 ms later. *)

Definition restoreInternalState
    (value min max initial : R) (justification : string) (active : Z) : M unit :=
  modify (set_currentValue value) ;;
  modify (set_minValue min) ;;
  modify (set_maxValue max) ;;
  modify (set_initialValue initial) ;;
  modify (set_textJustification justification) ;;
  modify (set_activeState active) ;;
  updateDisplay ;;
  call Redraw ;;
  call (Post ("RESTORED: Internal state restored" ++ nl)).

Definition loadbang : M unit :=
  parseJustificationArgs ;;
  updateDisplay ;;
  notifyclients ;;
  call Redraw.

End Script.

(** The record [save] embeds for [restoreInternalState]: the six globals, in
    the order of the handler's parameters. *)
Record saved_state := {
  saved_value : R;
  saved_min : R;
  saved_max : R;
  saved_initial : R;
  saved_justification : string;
  saved_active : Z
}.

(** The first [embedmessage] of [save]. *)
Definition save (s : numbox) : saved_state := {|
  saved_value := currentValue s;
  saved_min := minValue s;
  saved_max := maxValue s;
  saved_initial := initialValue s;
  saved_justification := textJustification s;
  saved_active := activeState s
|}.

(** Delivery of the embedded message on load. *)
Definition restore (v : variant) (box : box_attrs) (r : saved_state) : M unit :=
  restoreInternalState v box
    (saved_value r) (saved_min r) (saved_max r) (saved_initial r)
    (saved_justification r) (saved_active r).


(** ** Vocabulary of the properties *)

(** The range in force once [updateRange] has read the box: the attribute's
    first two entries when it has them, the cached bounds otherwise. *)
Definition refreshed_range (box : box_attrs) (s : numbox) : R * R :=
  match _parameter_range box with
  | Some (r0 :: r1 :: _) => (r0, r1)
  | _ => (minValue s, maxValue s)
  end.

(** A range attribute that is missing or has fewer than two entries. *)
Definition malformed (rangeAttr : option (list R)) : Prop :=
  match rangeAttr with
  | None => True
  | Some l => (List.length l < 2)%nat
  end.

(** The output value [updateDisplay] derives from the current value: the
    value itself, except outside an edit session under the decibel style. *)
Definition output_for (v : variant) (box : box_attrs) (editing : bool) (cv : R) : R :=
  if editing then cv
  else if (getUnitStyle box =? 4)%Z then
    if leb cv (-80) then 0
    else match v with V1 => cv | V2 => dbtoa cv end
  else cv.

(** [outputValue] is the one the last [updateDisplay] derived. *)
Definition in_sync (v : variant) (box : box_attrs) (s : numbox) : Prop :=
  outputValue s = output_for v box (isEditing s) (currentValue s).


(** What a set-value request for the current value leaves behind: the value
    and the output as they were, and the output sent once when active. *)
Definition keeps_and_resends (s : numbox) (res : unit * numbox * list event) : Prop :=
  currentValue (state_of res) = currentValue s /\
  outputValue (state_of res) = outputValue s /\
  outlet0 (trace_of res) = (if truthy (activeState s) then [outputValue s] else []).

(** A box with nothing set in the inspector, and boxes with a range. *)
Definition plain_box : box_attrs := {|
  _parameter_range := None;
  _parameter_initial_enable := false;
  _parameter_initial := None;
  _parameter_unitstyle := None;
  _parameter_type := None;
  _parameter_invisible := None;
  jsarguments := ArgsNone
|}.

Definition box_with_range (range : list R) : box_attrs := {|
  _parameter_range := Some range;
  _parameter_initial_enable := false;
  _parameter_initial := None;
  _parameter_unitstyle := None;
  _parameter_type := None;
  _parameter_invisible := None;
  jsarguments := ArgsNone
|}.

(** A box set up for decibels: the range [[-80, 6]] and the unit style 4. *)
Definition decibel_box : box_attrs := {|
  _parameter_range := Some [-80; 6];
  _parameter_initial_enable := false;
  _parameter_initial := None;
  _parameter_unitstyle := Some 4%Z;
  _parameter_type := None;
  _parameter_invisible := None;
  jsarguments := ArgsNone
|}.

(** The justification an argument names, read without regard to case, with
    ["center"] normalised to ["centre"]. *)
Definition justification_of (arg : string) : option string :=
  let a := toLowerCase arg in
  if (a =? "left")%string then Some "left"%string
  else if ((a =? "centre") || (a =? "center"))%string then Some "centre"%string
  else if (a =? "right")%string then Some "right"%string
  else None.

(** The justifications named by a list of arguments, in order. *)
Fixpoint matches (args : list string) : list string :=
  match args with
  | [] => []
  | a :: rest =>
      match justification_of a with
      | Some j => j :: matches rest
      | None => matches rest
      end
  end.

Definition box_with_args (args : jsargs) : box_attrs := {|
  _parameter_range := None;
  _parameter_initial_enable := false;
  _parameter_initial := None;
  _parameter_unitstyle := None;
  _parameter_type := None;
  _parameter_invisible := None;
  jsarguments := args
|}.

(** A drag in progress in the initial state of [V2], the pointer last seen
    at height [y]. *)
Definition dragging_at (y : R) : numbox :=
  set_lastDragY y (set_isDragging true (set_currentValue 0 (initial V2))).

(** The widget of [V1] with the range [[0, 100]], clicked, and then with the
    keys 4 and 2 typed. *)
Definition focused : numbox :=
  state_of (onclick V1 (box_with_range [0; 100]) 0 0 true false false false false false
              (initial V1)).

Definition typed_42 : numbox :=
  state_of (keyInput V1 (box_with_range [0; 100]) 50
    (state_of (keyInput V1 (box_with_range [0; 100]) 52 focused))).

(** A session under the decibel style in [V2]: the value is set to -6, the
    widget is clicked, and the minus key is typed. *)
Definition typing_minus : numbox :=
  state_of (keyInput V2 decibel_box 45
    (state_of (onclick V2 decibel_box 0 0 true false false false false false
      (state_of (msg_float V2 decibel_box (-6) (initial V2)))))).

From Stdlib Require Import Permutation Lia.

(** ** The widget as a whole: inbound messages and their sequences *)

(** The messages and callbacks the host delivers to the script, each named
    after the function it runs; [In_focusCheck] and [In_toggleCursor] are
    the two scheduled tasks firing. *)
Inductive input :=
| In_msg_float (x : R)
| In_setvalueof (value : R)
| In_active (state : Z)
| In_onclick (x y : R) (button cmd shift capslock option ctrl : bool)
| In_ondblclick (x y : R) (button cmd shift capslock option ctrl : bool)
| In_ondrag (x y : R) (button cmd shift capslock option ctrl : bool)
| In_globalMouse (leftClick : bool) (globalX globalY : R)
| In_focusCheck
| In_onidleout (x y : R)
| In_keyInput (c : Z)
| In_toggleCursor
| In_attribute (attrname : string)
| In_loadbang
| In_restoreInternalState (r : saved_state).

(** The function a message runs.  [setvalueof], [loadbang] and
    [restoreInternalState] exist in [V2] only; [V1] has nothing to run for
    them. *)
Definition handle (v : variant) (box : box_attrs) (i : input) : M unit :=
  match i with
  | In_msg_float x => msg_float v box x
  | In_setvalueof value =>
      match v with V1 => skip | V2 => setvalueof v box value end
  | In_active state => active state
  | In_onclick x y button cmd shift capslock option ctrl =>
      onclick v box x y button cmd shift capslock option ctrl
  | In_ondblclick x y button cmd shift capslock option ctrl =>
      ondblclick v box x y button cmd shift capslock option ctrl
  | In_ondrag x y button cmd shift capslock option ctrl =>
      ondrag v box x y button cmd shift capslock option ctrl
  | In_globalMouse leftClick globalX globalY => globalMouse leftClick globalX globalY
  | In_focusCheck => focusCheck v box
  | In_onidleout x y => onidleout x y
  | In_keyInput c => keyInput v box c
  | In_toggleCursor => toggleCursor
  | In_attribute attrname => handleAttributeChange v box attrname
  | In_loadbang =>
      match v with V1 => skip | V2 => loadbang v box end
  | In_restoreInternalState r =>
      match v with V1 => skip | V2 => restore v box r end
  end.

(** A run of the widget: the messages in order, each with the attributes the
    box has when it arrives. *)
Fixpoint play_all (v : variant) (steps : list (box_attrs * input)) : M unit :=
  match steps with
  | [] => skip
  | (box, i) :: rest => handle v box i ;; play_all v rest
  end.

(** The keys of a list typed one after the other. *)
Definition typed (box : box_attrs) (keys : list Z) : list (box_attrs * input) :=
  map (fun c => (box, In_keyInput c)) keys.

(** *** Invariants *)

(** The current value lies within the cached bounds. *)
Definition value_in_range (s : numbox) : Prop :=
  minValue s <= currentValue s <= maxValue s.

(** The box's range attribute, when it has two entries, has them in order. *)
Definition range_ordered (box : box_attrs) : Prop :=
  match _parameter_range box with
  | Some (r0 :: r1 :: _) => r0 <= r1
  | _ => True
  end.

(** The messages that assign [currentValue] without clamping it. *)
Definition unclamped (i : input) : bool :=
  match i with
  | In_ondblclick _ _ _ _ _ _ _ _ => true
  | In_restoreInternalState _ => true
  | _ => false
  end.

Definition is_active_message (i : input) : bool :=
  match i with
  | In_active _ => true
  | _ => false
  end.

(** An edit session is open only while the widget has the focus. *)
Definition edit_has_focus (s : numbox) : Prop :=
  isEditing s = true -> hasFocus s = true.

(** The characters [keyInput] lets into the edit buffer: the digits, the
    point and the minus sign. *)
Definition edit_char (c : ascii) : bool :=
  let n := N_of_ascii c in
  (((48 <=? n) && (n <=? 57)) || (n =? 46) || (n =? 45))%N.

Fixpoint edit_chars (s : string) : bool :=
  match s with
  | EmptyString => true
  | String c s' => edit_char c && edit_chars s'
  end.

(** The keys that only edit the buffer: the digits, the point, the minus
    sign and backspace. *)
Definition buffer_key (c : Z) : bool := isNumericKey c || (c =? 127)%Z.

(** The value a reset applies: the box's initial value when it is enabled
    and set, the cached one when it is enabled and not set, 0 when it is
    not enabled. *)
Definition reset_value (box : box_attrs) (s : numbox) : R :=
  if _parameter_initial_enable box then
    match _parameter_initial box with
    | Some initialAttr => initialAttr
    | None => initialValue s
    end
  else 0.

(** ** Resizing *)

(** [onresize(width, height)].  The result is the rectangle written to the
    box's [patching_rect], if one is written; [left] and [top] are
    [box.rect[0]] and [box.rect[1]].  [V2] has the write commented out. *)
Definition onresize (v : variant) (left top : R) (width height : R)
    : M (option (R * R * R * R)) :=
  let fixedHeight := 15 in
  let minWidth := 25 in
  let needsResize := false in
  let '(height, needsResize) :=
    if strict_neq height fixedHeight then (fixedHeight, true)
    else (height, needsResize) in
  let '(width, needsResize) :=
    if ltb width minWidth then (minWidth, true)
    else (width, needsResize) in
  let written :=
    if needsResize then
      match v with
      | V1 => Some (left, top, width, height)
      | V2 => None
      end
    else None in
  call Redraw ;;
  ret written.

(** ** Restoring the attributes ([V2]) *)

(** The messages [save] embeds after [restoreInternalState], in order, with
    the attribute values as [box.getattr] gives them; the range is embedded
    only when it has two entries. *)
Inductive attr_message :=
| restoreParameterType (type : option Z)
| restoreInitialEnable (enable : bool)
| restoreInitialValue (value : option R)
| restoreUnitStyle (style : option Z)
| restoreParameterInvisible (invisible : option Z)
| restoreParameterRange (min max : R).

Definition save_attributes (box : box_attrs) : list attr_message :=
  [restoreParameterType (_parameter_type box);
   restoreInitialEnable (_parameter_initial_enable box);
   restoreInitialValue (_parameter_initial box);
   restoreUnitStyle (_parameter_unitstyle box);
   restoreParameterInvisible (_parameter_invisible box)]
  ++ match _parameter_range box with
     | Some (r0 :: r1 :: _) => [restoreParameterRange r0 r1]
     | _ => []
     end.

(** Each of these handlers only schedules a task; this is the delay it
    gives it. *)
Definition restore_delay (m : attr_message) : Z :=
  match m with
  | restoreParameterType _ => 10
  | restoreInitialEnable _ => 20
  | restoreInitialValue _ => 30
  | restoreParameterRange _ _ => 40
  | restoreUnitStyle _ => 50
  | restoreParameterInvisible _ => 60
  end%Z.

(** What the task does to the box when it fires: one [box.setattr], or
    nothing for an initial value that is [null]. *)
Definition restore_task (m : attr_message) (box : box_attrs) : box_attrs :=
  match m with
  | restoreParameterType type =>
      {| _parameter_range := _parameter_range box;
         _parameter_initial_enable := _parameter_initial_enable box;
         _parameter_initial := _parameter_initial box;
         _parameter_unitstyle := _parameter_unitstyle box;
         _parameter_type := type;
         _parameter_invisible := _parameter_invisible box;
         jsarguments := jsarguments box |}
  | restoreInitialEnable enable =>
      {| _parameter_range := _parameter_range box;
         _parameter_initial_enable := enable;
         _parameter_initial := _parameter_initial box;
         _parameter_unitstyle := _parameter_unitstyle box;
         _parameter_type := _parameter_type box;
         _parameter_invisible := _parameter_invisible box;
         jsarguments := jsarguments box |}
  | restoreInitialValue (Some value) =>
      {| _parameter_range := _parameter_range box;
         _parameter_initial_enable := _parameter_initial_enable box;
         _parameter_initial := Some value;
         _parameter_unitstyle := _parameter_unitstyle box;
         _parameter_type := _parameter_type box;
         _parameter_invisible := _parameter_invisible box;
         jsarguments := jsarguments box |}
  | restoreInitialValue None => box
  | restoreUnitStyle style =>
      {| _parameter_range := _parameter_range box;
         _parameter_initial_enable := _parameter_initial_enable box;
         _parameter_initial := _parameter_initial box;
         _parameter_unitstyle := style;
         _parameter_type := _parameter_type box;
         _parameter_invisible := _parameter_invisible box;
         jsarguments := jsarguments box |}
  | restoreParameterInvisible invisible =>
      {| _parameter_range := _parameter_range box;
         _parameter_initial_enable := _parameter_initial_enable box;
         _parameter_initial := _parameter_initial box;
         _parameter_unitstyle := _parameter_unitstyle box;
         _parameter_type := _parameter_type box;
         _parameter_invisible := invisible;
         jsarguments := jsarguments box |}
  | restoreParameterRange min max =>
      {| _parameter_range := Some [min; max];
         _parameter_initial_enable := _parameter_initial_enable box;
         _parameter_initial := _parameter_initial box;
         _parameter_unitstyle := _parameter_unitstyle box;
         _parameter_type := _parameter_type box;
         _parameter_invisible := _parameter_invisible box;
         jsarguments := jsarguments box |}
  end.

(** The tasks of a list of messages firing in the given order. *)
Definition fire_all (ms : list attr_message) (box : box_attrs) : box_attrs :=
  fold_left (fun b m => restore_task m b) ms box.

(** The messages that move the focus, and the ones that assign
    [activeState]. *)
Definition focus_message (i : input) : bool :=
  match i with
  | In_onclick _ _ _ _ _ _ _ _ => true
  | In_focusCheck => true
  | _ => false
  end.

Definition sets_active_state (i : input) : bool :=
  match i with
  | In_active _ => true
  | In_restoreInternalState _ => true
  | _ => false
  end.

(** What one message keeps, whatever the message: the facts are read off a
    single symbolic run of its handler. *)
Definition step_facts (v : variant) (box : box_attrs) (i : input) (s : numbox)
    (res : unit * numbox * list event) : Prop :=
  let s' := state_of res in
  (range_ordered box -> unclamped i = false -> value_in_range s -> value_in_range s') /\
  (in_sync v box s -> in_sync v box s') /\
  (edit_has_focus s -> edit_has_focus s') /\
  (is_active_message i = false -> truthy (activeState s) = false ->
   outlet0 (trace_of res) = []) /\
  (edit_chars (editText s) = true -> edit_chars (editText s') = true) /\
  (focus_message i = false -> hasFocus s' = hasFocus s) /\
  (sets_active_state i = false -> activeState s' = activeState s).

(** The keys that can change the value: the two enters and, in [V2], the
    two arrows. *)
Definition commits (v : variant) (c : Z) : bool :=
  ((c =? 13) || (c =? 3)
   || match v with
      | V1 => false
      | V2 => (c =? 30) || (c =? 31)
      end)%Z.

(** ** Running a handler symbolically *)

Ltac run :=
  cbv beta iota zeta delta
    [msg_float setvalueof updateRange updateInitialValue show
     notifyclients outlet_if_active commitEdit cancelEdit toggleCursor
     onclick ondblclick stepSize drag_apply ondrag globalMouse focusCheck onidleout
     arrowKey keyInput updateParameterType handleAttributeChange
     restoreInternalState restore
     loadbang active getvalueof save
     bind ret get modify call skip when state_of trace_of fst snd app outlet0 negb
     set_currentValue set_minValue set_maxValue set_initialValue
     set_textJustification set_activeState set_normalStepSize set_fineStepSize
     set_displayText set_outputValue set_isDragging set_dragStartY
     set_dragStartValue set_lastDragY set_cursorOrigin set_isEditing
     set_editText set_hasFocus set_showCursor set_clickedInside
     currentValue minValue maxValue initialValue textJustification activeState
     normalStepSize fineStepSize displayText outputValue isDragging dragStartY
     dragStartValue lastDragY cursorOrigin isEditing editText hasFocus
     showCursor clickedInside
     saved_value saved_min saved_max saved_initial saved_justification
     saved_active].

Ltac case_style u :=
  destruct u as [|u|u];
  repeat match goal with
  | |- context [match ?p with xI _ => _ | xO _ => _ | xH => _ end] => destruct p
  end.

(** [updateDisplay] writes [displayText] and [outputValue] and nothing else,
    and calls nothing. *)
Lemma updateDisplay_frame v box s :
  exists text,
    updateDisplay v box s =
    (tt,
     set_outputValue (output_for v box (isEditing s) (currentValue s))
       (set_displayText text s),
     []).
Proof.
  destruct s as [cv lo hi ini just act ns fs txt out drag dy dv ly co ed buf foc cur clk].
  unfold output_for, updateDisplay, getUnitStyle. run.
  destruct ed; [eauto|].
  destruct (_parameter_unitstyle box) as [u|]; [|eauto].
  case_style u; cbv beta iota delta [Z.eqb Pos.eqb]; eauto.
  destruct (leb _ _); eauto.
Qed.

Lemma strict_neq_false a b : strict_neq a b = false -> a = b.
Proof. unfold strict_neq. destruct (Req_dec_T a b); congruence. Qed.

Lemma strict_neq_true a b : strict_neq a b = true -> a <> b.
Proof. unfold strict_neq. destruct (Req_dec_T a b); congruence. Qed.

Lemma strict_neq_refl a : strict_neq a a = false.
Proof. unfold strict_neq. destruct (Req_dec_T a a); congruence. Qed.

Ltac display :=
  match goal with
  | |- context [updateDisplay ?v ?b ?s] =>
      let text := fresh "text" in
      destruct (updateDisplay_frame v b s) as [text ->]
  end.

Ltac reduced a :=
  lazymatch a with
  | context [match _ with _ => _ end] => fail
  | _ => idtac
  end.

(** One step of the symbolic run: the next stuck test is split. *)
Ltac split_test :=
  match goal with
  | H : truthy ?a = _ |- context [truthy ?a] => rewrite H
  | H : strict_neq ?a ?b = _ |- context [strict_neq ?a ?b] => rewrite H
  | |- context [updateDisplay ?v ?b ?s] =>
      reduced s; display
  | |- context [match _parameter_range ?b with _ => _ end] =>
      destruct (_parameter_range b) as [[|? [|? ?]]|]
  | |- context [if _parameter_initial_enable ?b then _ else _] =>
      destruct (_parameter_initial_enable b)
  | |- context [match _parameter_initial ?b with _ => _ end] =>
      destruct (_parameter_initial b)
  | |- context [if strict_neq ?a ?b then _ else _] =>
      reduced a; reduced b;
      let E := fresh "Hneq" in destruct (strict_neq a b) eqn:E
  | |- context [if truthy ?a then _ else _] =>
      reduced a;
      let E := fresh "Hact" in destruct (truthy a) eqn:E
  | |- context [match ?x with V1 => _ | V2 => _ end] => is_var x; destruct x
  end.

Ltac crunch := run; repeat (split_test; run).

(** The same on a box that is written out. *)
Ltac read_box :=
  cbv beta iota delta
    [plain_box box_with_range decibel_box box_with_args _parameter_range _parameter_initial_enable
     _parameter_initial _parameter_unitstyle _parameter_type
     _parameter_invisible jsarguments].

Ltac run_on_box := repeat first [progress run | progress read_box].

Ltac crunch_on_box := run_on_box; repeat (split_test; run_on_box).

Ltac settle_clamp :=
  unfold Math_max, Math_min, Rmax, Rmin; repeat destruct (Rle_dec _ _); lra.

(** A branch whose test came out against the numbers is closed. *)
Ltac prune :=
  try (exfalso;
       match goal with
       | H : strict_neq _ _ = true |- _ =>
           apply strict_neq_true in H; apply H; settle_clamp
       | H : truthy _ = false |- _ => discriminate H
       end).

(** The tests of [keyInput] on a key code that is written out. *)
Ltac key_tests :=
  cbv beta iota delta
    [isValidChar isNumericKey Z.eqb Z.leb Z.compare Pos.compare
     Pos.compare_cont Pos.eqb andb orb negb].

(** A sequence of handlers played on a state and a box that are written
    out. *)
Ltac play :=
  repeat first [progress run_on_box | progress key_tests | split_test; prune].

(** *** Clamping *)

Lemma clamp_within lo hi x :
  lo <= hi -> lo <= Math_max lo (Math_min hi x) <= hi.
Proof.
  intros H. unfold Math_max, Math_min, Rmax, Rmin.
  repeat destruct (Rle_dec _ _); lra.
Qed.

Lemma clamp_inside lo hi x :
  lo <= x <= hi -> Math_max lo (Math_min hi x) = x.
Proof.
  intros H. unfold Math_max, Math_min, Rmax, Rmin.
  repeat destruct (Rle_dec _ _); lra.
Qed.


Lemma clamp_above lo hi x :
  lo <= hi -> x > hi -> Math_max lo (Math_min hi x) = hi.
Proof.
  intros H1 H2. unfold Math_max, Math_min, Rmax, Rmin.
  repeat destruct (Rle_dec _ _); lra.
Qed.

(** The script never orders the bounds it is given: with [hi < lo] every
    value is sent to [lo]. *)
Lemma clamp_inverted lo hi x :
  hi < lo -> Math_max lo (Math_min hi x) = lo.
Proof.
  intros H. unfold Math_max, Math_min, Rmax, Rmin.
  repeat destruct (Rle_dec _ _); lra.
Qed.

Lemma clamp_idempotent lo hi x :
  let c := Math_max lo (Math_min hi x) in
  Math_max lo (Math_min hi c) = c.
Proof.
  unfold Math_max, Math_min, Rmax, Rmin.
  repeat destruct (Rle_dec _ _); lra.
Qed.

(** *** The number formats *)

Lemma toFixed_examples :
  toFixed 1 (-6) = "-6.0"%string /\
  toFixed 2 (1 / 2) = "0.50"%string /\
  toFixed 1 (-25 / 100) = "-0.3"%string.
Proof.
  unfold toFixed. repeat split.
  - replace (Zfloor (Rabs (-6) * 10 ^ 1 + / 2)) with 60%Z.
    + destruct (Rlt_dec (-6) 0) as [_|H]; [reflexivity|exfalso; lra].
    + symmetry. apply Zfloor_eq. rewrite Rabs_left by lra. lra.
  - replace (Zfloor (Rabs (1 / 2) * 10 ^ 2 + / 2)) with 50%Z.
    + destruct (Rlt_dec (1 / 2) 0) as [H|_]; [exfalso; lra|reflexivity].
    + symmetry. apply Zfloor_eq. rewrite Rabs_pos_eq by lra. lra.
  - replace (Zfloor (Rabs (-25 / 100) * 10 ^ 1 + / 2)) with 3%Z.
    + destruct (Rlt_dec (-25 / 100) 0) as [_|H]; [reflexivity|exfalso; lra].
    + symmetry. apply Zfloor_eq. rewrite Rabs_left by lra. lra.
Qed.

(** ** Range refresh *)

(** C8.  When the range attribute is missing or has fewer than two entries,
    [updateRange] does nothing: the globals, among them [minValue],
    [maxValue] and [currentValue], are as before and no host call is made,
    so nothing is sent to the primary outlet. *)
Theorem C8_malformed_range_ignored (v : variant) (box : box_attrs) (s : numbox) :
  malformed (_parameter_range box) ->
  updateRange v box s = (tt, s, []) /\
  minValue (state_of (updateRange v box s)) = minValue s /\
  maxValue (state_of (updateRange v box s)) = maxValue s /\
  currentValue (state_of (updateRange v box s)) = currentValue s /\
  outlet0 (trace_of (updateRange v box s)) = [].
Proof.
  intros Hbad.
  assert (E : updateRange v box s = (tt, s, [])).
  { unfold updateRange, malformed in *.
    destruct (_parameter_range box) as [[|r0 [|r1 rest]]|]; try reflexivity.
    simpl in Hbad. exfalso. apply (Nat.lt_irrefl 2).
    eapply Nat.le_lt_trans; [|exact Hbad].
    apply le_n_S, le_n_S, Nat.le_0_l. }
  rewrite E. repeat split; reflexivity.
Qed.

Lemma C8_malformed_range_ignored_witness :
  malformed (_parameter_range (box_with_range [5])) /\
  updateRange V2 (box_with_range [5]) (initial V2) = (tt, initial V2, []).
Proof.
  assert (H : malformed (_parameter_range (box_with_range [5]))).
  { unfold malformed. simpl. apply le_n. }
  split; [exact H|].
  exact (proj1 (C8_malformed_range_ignored V2 (box_with_range [5]) (initial V2) H)).
Defined.

(** What [updateRange] does with a well-formed attribute. *)
Lemma updateRange_wellformed v box s r0 r1 rest :
  _parameter_range box = Some (r0 :: r1 :: rest) ->
  let res := updateRange v box s in
  let s' := state_of res in
  let clamped := Math_max r0 (Math_min r1 (currentValue s)) in
  minValue s' = r0 /\ maxValue s' = r1 /\
  currentValue s' = clamped /\
  isEditing s' = isEditing s /\
  activeState s' = activeState s /\
  outlet0 (trace_of res) =
    (if truthy (activeState s) && strict_neq clamped (currentValue s)
     then [output_for v box (isEditing s) clamped] else []) /\
  (strict_neq clamped (currentValue s) = true ->
   outputValue s' = output_for v box (isEditing s) clamped) /\
  (strict_neq clamped (currentValue s) = false ->
   outputValue s' = outputValue s).
Proof.
  intros H.
  destruct s as [cv lo hi ini just act ns fs txt out drag dy dv ly co ed buf foc cur clk].
  unfold updateRange. rewrite H. crunch; rewrite ?andb_false_r;
    repeat split; auto; try congruence.
  all: apply strict_neq_false in Hneq; auto.
Qed.

(** C4.  A range refresh that reads a well-formed [[min, max]] stores the two
    bounds and re-clamps [currentValue] against them, so the value lies in
    the new range (for a range with [min <= max]); the primary outlet gets
    exactly one value, the recomputed [outputValue], when the widget is
    active and the clamped value differs from the old one, and nothing
    otherwise.  From [currentValue = 50], the range [[0, 10]] gives
    [currentValue = 10] and one emission when active, none when inactive. *)
Theorem C4_range_refresh_reclamps
    (v : variant) (box : box_attrs) (s : numbox) (r0 r1 : R) (rest : list R) :
  _parameter_range box = Some (r0 :: r1 :: rest) ->
  let res := updateRange v box s in
  let s' := state_of res in
  let clamped := Math_max r0 (Math_min r1 (currentValue s)) in
  minValue s' = r0 /\ maxValue s' = r1 /\
  currentValue s' = clamped /\
  (r0 <= r1 -> minValue s' <= currentValue s' <= maxValue s') /\
  outlet0 (trace_of res) =
    (if truthy (activeState s) && strict_neq clamped (currentValue s)
     then [output_for v box (isEditing s') (currentValue s')] else []) /\
  (currentValue s = 50 -> r0 = 0 -> r1 = 10 ->
   currentValue s' = 10 /\
   List.length (outlet0 (trace_of res)) = if truthy (activeState s) then 1%nat else 0%nat).
Proof.
  intros H res s' clamped.
  destruct (updateRange_wellformed v box s r0 r1 rest H)
    as (Hmin & Hmax & Hcv & Hed & _ & Hout & _).
  fold res s' clamped in Hmin, Hmax, Hcv, Hed, Hout.
  repeat split; auto.
  - rewrite Hmin, Hcv. apply clamp_within; assumption.
  - rewrite Hmax, Hcv. apply clamp_within; assumption.
  - rewrite Hout, Hed, Hcv. reflexivity.
  - rewrite Hcv. unfold clamped. rewrite H0, H1, H2. apply clamp_above; lra.
  - rewrite Hout. unfold clamped. rewrite H0, H1, H2.
    rewrite (clamp_above 0 10 50) by lra.
    assert (E : strict_neq 10 50 = true).
    { unfold strict_neq. destruct (Req_dec_T 10 50); [lra|reflexivity]. }
    rewrite E, andb_true_r. destruct (truthy (activeState s)); reflexivity.
Qed.

Lemma C4_range_refresh_reclamps_witness :
  _parameter_range (box_with_range [0; 10]) = Some [0; 10] /\
  currentValue (set_currentValue 50 (initial V2)) = 50 /\
  currentValue
    (state_of (updateRange V2 (box_with_range [0; 10]) (set_currentValue 50 (initial V2))))
  = 10 /\
  List.length
    (outlet0 (trace_of (updateRange V2 (box_with_range [0; 10])
                          (set_currentValue 50 (initial V2))))) = 1%nat.
Proof.
  split; [reflexivity|]. split; [reflexivity|].
  exact (proj2 (proj2 (proj2 (proj2 (proj2
    (C4_range_refresh_reclamps V2 (box_with_range [0; 10])
       (set_currentValue 50 (initial V2)) 0 10 [] eq_refl)))))
    eq_refl eq_refl eq_refl).
Defined.

(** ** Set-value requests *)

Lemma refreshed_range_updateRange v box s :
  (minValue (state_of (updateRange v box s)),
   maxValue (state_of (updateRange v box s))) = refreshed_range box s.
Proof.
  destruct s as [cv lo hi ini just act ns fs txt out drag dy dv ly co ed buf foc cur clk].
  unfold refreshed_range, updateRange. crunch; reflexivity.
Qed.




(** On an active widget a set-value request always ends by sending
    [outputValue] to the primary outlet. *)
Lemma msg_float_active_emits v box x s :
  truthy (activeState s) = true ->
  exists before,
    outlet0 (trace_of (msg_float v box x s)) =
    before ++ [outputValue (state_of (msg_float v box x s))].
Proof.
  destruct s as [cv lo hi ini just act ns fs txt out drag dy dv ly co ed buf foc cur clk].
  cbn [activeState]. intros Hact. crunch; try discriminate.
  all: first [exists []; reflexivity | eexists [_]; reflexivity].
Qed.

(** The claim of idempotence, as the specification words it: a set-value
    request for the current value changes no [outputValue] and sends nothing
    to the primary outlet.  In the initial state of [V1], with the range
    [[0, 127]], [msg_float(0)] sends 0. *)
Lemma C3_silent_resend_counterexample :
  ~ (outputValue (state_of (msg_float V1 (box_with_range [0; 127])
                              (currentValue (initial V1)) (initial V1)))
     = outputValue (initial V1)
     /\ outlet0 (trace_of (msg_float V1 (box_with_range [0; 127])
                             (currentValue (initial V1)) (initial V1)))
        = []).
Proof.
  intros [_ H].
  destruct (msg_float_active_emits V1 (box_with_range [0; 127])
              (currentValue (initial V1)) (initial V1) eq_refl) as [before E].
  rewrite H in E. destruct before; discriminate E.
Qed.

(** C3, amended.  In a state whose [currentValue] lies in the refreshed range
    and whose [outputValue] is the derived one, a set-value request for the
    current value leaves [currentValue] and [outputValue] as they are, and
    it is not silent: an active widget sends [outputValue] to the primary
    outlet exactly once, an inactive one sends nothing. *)
Theorem C3_resend_keeps_value_and_emits (v : variant) (box : box_attrs) (s : numbox) :
  fst (refreshed_range box s) <= currentValue s <= snd (refreshed_range box s) ->
  in_sync v box s ->
  keeps_and_resends s (msg_float v box (currentValue s) s) /\
  keeps_and_resends s (setvalueof v box (currentValue s) s).
Proof.
  destruct s as [cv lo hi ini just act ns fs txt out drag dy dv ly co ed buf foc cur clk].
  unfold keeps_and_resends, in_sync, refreshed_range.
  cbn [currentValue outputValue isEditing minValue maxValue activeState].
  intros Hin Hsync.
  split; run; repeat (split_test; run; cbn [fst snd] in Hin);
    try discriminate;
    try (apply strict_neq_true in Hneq; rewrite clamp_inside in Hneq by assumption;
         congruence);
    rewrite ?clamp_inside by assumption; rewrite <- ?Hsync; repeat split; reflexivity.
Qed.

Lemma C3_resend_keeps_value_and_emits_witness :
  (fst (refreshed_range (box_with_range [0; 127]) (initial V1))
     <= currentValue (initial V1)
     <= snd (refreshed_range (box_with_range [0; 127]) (initial V1))
   /\ in_sync V1 (box_with_range [0; 127]) (initial V1))
  /\ outlet0 (trace_of (msg_float V1 (box_with_range [0; 127])
                          (currentValue (initial V1)) (initial V1)))
     = [outputValue (initial V1)].
Proof.
  assert (Hin : fst (refreshed_range (box_with_range [0; 127]) (initial V1))
                <= currentValue (initial V1)
                <= snd (refreshed_range (box_with_range [0; 127]) (initial V1))).
  { cbn. lra. }
  assert (Hsync : in_sync V1 (box_with_range [0; 127]) (initial V1)).
  { reflexivity. }
  split; [split; assumption|].
  exact (proj2 (proj2 (proj1
    (C3_resend_keeps_value_and_emits V1 (box_with_range [0; 127]) (initial V1)
       Hin Hsync)))).
Defined.

(** ** The decibel style *)







(** ** Committing an edit *)

(** Enter and numpad enter, with the focus and an open edit session, run
    [commitEdit]. *)
Lemma keyInput_enter v box s c :
  (c = 13 \/ c = 3)%Z ->
  hasFocus s = true ->
  isEditing s = true ->
  keyInput v box c s = commitEdit v box s.
Proof.
  destruct s as [cv lo hi ini just act ns fs txt out drag dy dv ly co ed buf foc cur clk].
  cbn [hasFocus isEditing]. intros Hc -> ->.
  unfold keyInput.
  destruct Hc as [-> | ->]; destruct v; key_tests; run; destruct (parseFloat buf) as [parsed|]; crunch; reflexivity.
Qed.

Lemma commitEdit_editing v box s :
  isEditing s = true ->
  let res := commitEdit v box s in
  let s' := state_of res in
  hd_error (trace_of res) = Some (Cancel ToggleCursor) /\
  isEditing s' = false /\
  minValue s' = minValue s /\
  maxValue s' = maxValue s /\
  outputValue s' = output_for v box false (currentValue s') /\
  match parseFloat (editText s) with
  | Some parsed =>
      currentValue s' = Math_max (minValue s) (Math_min (maxValue s) parsed) /\
      outlet0 (trace_of res) =
        (if truthy (activeState s) then [currentValue s'] else [])
  | None =>
      currentValue s' = currentValue s /\
      outlet0 (trace_of res) = []
  end.
Proof.
  destruct s as [cv lo hi ini just act ns fs txt out drag dy dv ly co ed buf foc cur clk].
  cbn [isEditing]. intros ->. unfold commitEdit. run.
  destruct (parseFloat buf) as [parsed|]; crunch; repeat split; reflexivity.
Qed.

Lemma typing_minus_facts :
  hasFocus typing_minus = true /\
  isEditing typing_minus = true /\
  editText typing_minus = "-"%string /\
  currentValue typing_minus = -6 /\
  outputValue typing_minus = -6.
Proof.
  unfold typing_minus, initial, keyInput. play.
  unfold output_for. rewrite !clamp_inside by lra. repeat split; reflexivity.
Qed.




(** The edit of the specification's example: with the range [[0, 100]], the
    keys 4 and 2 and then Enter commit 42; the key a is ignored. *)
Lemma typed_42_facts :
  hasFocus typed_42 = true /\
  isEditing typed_42 = true /\
  editText typed_42 = "42"%string /\
  minValue typed_42 = 0 /\
  maxValue typed_42 = 100.
Proof.
  unfold typed_42, focused, initial, keyInput. play.
  repeat split; reflexivity.
Qed.

Lemma edit_commit_42 :
  currentValue (state_of (keyInput V1 (box_with_range [0; 100]) 13 typed_42)) = 42
  /\ keyInput V1 (box_with_range [0; 100]) 97 focused = (tt, focused, []).
Proof.
  destruct typed_42_facts as (Hfoc & Hed & Hbuf & Hmin & Hmax).
  split.
  - rewrite (keyInput_enter V1 _ typed_42 13 (or_introl eq_refl) Hfoc Hed).
    destruct (commitEdit_editing V1 (box_with_range [0; 100]) typed_42 Hed)
      as (_ & _ & _ & _ & _ & Hparse).
    rewrite Hbuf in Hparse.
    change (parseFloat "42") with (Some (IZR 42 + IZR 0 / 10 ^ 0)) in Hparse.
    destruct Hparse as [-> _]. rewrite Hmin, Hmax.
    rewrite clamp_inside; lra.
  - unfold focused, initial, keyInput. play. reflexivity.
Qed.

(** ** Dragging *)

(** A move of a drag in [V2] made while [|lastDragY|] exceeds 30. *)
Lemma ondrag_V2_far
    (box : box_attrs) (s : numbox) (x y : R)
    (button cmd shift capslock option ctrl : bool) :
  isDragging s = true ->
  Math_abs (lastDragY s) > 30 ->
  ondrag V2 box x y button cmd shift capslock option ctrl s =
  (tt, set_lastDragY y s,
   [HideCursor; PUpdate (fst (cursorOrigin s)) (snd (cursorOrigin s))]).
Proof.
  destruct s as [cv lo hi ini just act ns fs txt out drag dy dv ly co ed buf foc cur clk].
  cbn [isDragging lastDragY]. intros -> Hfar. unfold ondrag, gtb. run.
  destruct (Rgt_dec (Math_abs ly) 30) as [_|Hnear]; [reflexivity|contradiction].
Qed.

(** A move of a drag in [V2] made while [|lastDragY|] is at most 30. *)
Lemma ondrag_V2_near
    (box : box_attrs) (s : numbox) (x y : R)
    (button cmd shift capslock option ctrl : bool) :
  isDragging s = true ->
  Math_abs (lastDragY s) <= 30 ->
  let res := ondrag V2 box x y button cmd shift capslock option ctrl s in
  let s' := state_of res in
  let step := if shift then fineStepSize s else normalStepSize s in
  let proposed := currentValue s + (lastDragY s - y) * step in
  let clamped := Math_max (minValue s) (Math_min (maxValue s) proposed) in
  currentValue s' = clamped /\
  lastDragY s' = y /\
  outlet0 (trace_of res) =
    (if truthy (activeState s) && strict_neq clamped (currentValue s)
     then [outputValue s'] else []).
Proof.
  destruct s as [cv lo hi ini just act ns fs txt out drag dy dv ly co ed buf foc cur clk].
  cbn [isDragging lastDragY]. intros -> Hnear. unfold ondrag, gtb. run.
  destruct (Rgt_dec (Math_abs ly) 30) as [Hfar|_]; [exfalso; lra|].
  destruct shift, button; crunch; rewrite ?andb_false_r;
    repeat split; auto; try (apply strict_neq_false in Hneq; congruence).
Qed.

(** C6.  During a drag ([V2]), a pointer move made while the tracked
    vertical offset [|lastDragY|] exceeds 30 hides the cursor, puts it back
    at the drag's origin and sets [lastDragY] to the new height, and does
    nothing else: [currentValue] is unchanged and nothing is sent to the
    primary outlet.  Otherwise the move proposes
    [currentValue + (lastDragY - y) * step], with the fine step when the
    modifier is held and the normal step otherwise; the proposal, clamped to
    the range, becomes [currentValue], and it is sent (when active) only if
    it differs from the old value. *)
Theorem C6_drag_move
    (box : box_attrs) (s : numbox) (x y : R)
    (button cmd shift capslock option ctrl : bool) :
  isDragging s = true ->
  let res := ondrag V2 box x y button cmd shift capslock option ctrl s in
  let s' := state_of res in
  (Math_abs (lastDragY s) > 30 ->
   s' = set_lastDragY y s /\
   trace_of res = [HideCursor; PUpdate (fst (cursorOrigin s)) (snd (cursorOrigin s))] /\
   currentValue s' = currentValue s /\
   lastDragY s' = y /\
   outlet0 (trace_of res) = []) /\
  (Math_abs (lastDragY s) <= 30 ->
   let step := if shift then fineStepSize s else normalStepSize s in
   let proposed := currentValue s + (lastDragY s - y) * step in
   let clamped := Math_max (minValue s) (Math_min (maxValue s) proposed) in
   currentValue s' = clamped /\
   (minValue s <= proposed <= maxValue s -> currentValue s' = proposed) /\
   lastDragY s' = y /\
   outlet0 (trace_of res) =
     (if truthy (activeState s) && strict_neq clamped (currentValue s)
      then [outputValue s'] else [])).
Proof.
  intros Hdrag res s'. split.
  - intros Hfar. unfold s', res.
    rewrite (ondrag_V2_far box s x y button cmd shift capslock option ctrl Hdrag Hfar).
    destruct s. repeat split; reflexivity.
  - intros Hnear step proposed clamped.
    destruct (ondrag_V2_near box s x y button cmd shift capslock option ctrl Hdrag Hnear)
      as (Hcv & Hy & Hout).
    fold res s' step proposed clamped in Hcv, Hy, Hout.
    repeat split; try assumption.
    intros Hrange. rewrite Hcv. apply clamp_inside. exact Hrange.
Qed.

Lemma C6_drag_move_witness :
  (isDragging (dragging_at 40) = true /\ Math_abs (lastDragY (dragging_at 40)) > 30)
  /\ currentValue (state_of (ondrag V2 plain_box 0 50 true false false false false false
                              (dragging_at 40)))
     = currentValue (dragging_at 40)
  /\ lastDragY (state_of (ondrag V2 plain_box 0 50 true false false false false false
                             (dragging_at 40))) = 50.
Proof.
  assert (Hfar : Math_abs (lastDragY (dragging_at 40)) > 30).
  { cbn. unfold Math_abs. rewrite Rabs_pos_eq; lra. }
  split; [split; [reflexivity|exact Hfar]|].
  destruct (proj1 (C6_drag_move plain_box (dragging_at 40) 0 50
                     true false false false false false eq_refl) Hfar)
    as (_ & _ & Hcv & Hy & _).
  split; assumption.
Defined.

(** The drag of the specification's example: from [currentValue = 0], a
    move by ten units upwards gives 5 with the normal step and 0.2 with the
    fine step. *)
Lemma drag_by_ten :
  currentValue (state_of (ondrag V2 plain_box 0 0 true false false false false false
                            (dragging_at 10))) = 5 /\
  currentValue (state_of (ondrag V2 plain_box 0 0 true false true false false false
                            (dragging_at 10))) = 2 / 10.
Proof.
  assert (Hnear : Math_abs (lastDragY (dragging_at 10)) <= 30).
  { cbn. unfold Math_abs. rewrite Rabs_pos_eq; lra. }
  split.
  - rewrite (proj1 (ondrag_V2_near plain_box (dragging_at 10) 0 0
                      true false false false false false eq_refl Hnear)).
    cbn. rewrite clamp_inside; lra.
  - rewrite (proj1 (ondrag_V2_near plain_box (dragging_at 10) 0 0
                      true false true false false false eq_refl Hnear)).
    cbn. rewrite clamp_inside; lra.
Qed.

(** [V1] has no recovery: every move of a drag is applied, with the literal
    steps 0.02 and 0.5. *)
Lemma ondrag_V1_applies
    (box : box_attrs) (s : numbox) (x y : R)
    (button cmd shift capslock option ctrl : bool) :
  isDragging s = true ->
  let s' := state_of (ondrag V1 box x y button cmd shift capslock option ctrl s) in
  let step := if shift then 2 / 100 else 5 / 10 in
  currentValue s' =
    Math_max (minValue s)
      (Math_min (maxValue s) (currentValue s + (lastDragY s - y) * step)) /\
  lastDragY s' = y.
Proof.
  destruct s as [cv lo hi ini just act ns fs txt out drag dy dv ly co ed buf foc cur clk].
  cbn [isDragging]. intros ->. unfold ondrag, stepSize. run.
  destruct shift, button; crunch;
    repeat split; auto; try (apply strict_neq_false in Hneq; congruence).
Qed.

(** ** Focus *)

(** C7.  A pointer-down inside the widget gives it the focus (and sets
    [clickedInside]).  With the focus held, a global left click schedules the
    deferred check, 1 ms later; when that check finds [clickedInside] not
    set, it takes the focus away and force-commits an open edit session.
    The pointer leaving the widget never changes the focus. *)
Theorem C7_focus (v : variant) (box : box_attrs) (s : numbox) :
  (forall (x y : R) (button cmd shift capslock option ctrl : bool),
     hasFocus (state_of (onclick v box x y button cmd shift capslock option ctrl s)) = true /\
     clickedInside (state_of (onclick v box x y button cmd shift capslock option ctrl s))
       = true) /\
  (forall globalX globalY : R,
     hasFocus s = true ->
     globalMouse true globalX globalY s =
       (tt, set_cursorOrigin (globalX, globalY) s, [Schedule FocusCheck 1%Z])) /\
  (clickedInside s = false ->
     hasFocus (state_of (focusCheck v box s)) = false /\
     isEditing (state_of (focusCheck v box s)) = false /\
     (isEditing s = true ->
      state_of (focusCheck v box s) =
        set_clickedInside false (state_of (commitEdit v box (set_hasFocus false s))) /\
      trace_of (focusCheck v box s) =
        Redraw :: trace_of (commitEdit v box (set_hasFocus false s)))) /\
  (forall x y : R, hasFocus (state_of (onidleout x y s)) = hasFocus s).
Proof.
  destruct s as [cv lo hi ini just act ns fs txt out drag dy dv ly co ed buf foc cur clk].
  cbn [hasFocus clickedInside isEditing].
  split; [|split; [|split]].
  - intros. crunch; split; reflexivity.
  - intros gx gy ->. reflexivity.
  - intros ->. unfold focusCheck. run. destruct ed; run.
    + destruct (parseFloat buf) as [parsed|]; crunch;
        (split; [reflexivity|]); (split; [reflexivity|]);
        intros _; split; reflexivity.
    + split; [reflexivity|]. split; [reflexivity|]. intros H; discriminate H.
  - intros x y. unfold onidleout. run. destruct drag; reflexivity.
Qed.

Lemma C7_focus_witness :
  (hasFocus typing_minus = true /\ isEditing typing_minus = true
   /\ clickedInside (set_clickedInside false typing_minus) = false)
  /\ trace_of (globalMouse true 0 0 typing_minus) = [Schedule FocusCheck 1%Z]
  /\ hasFocus (state_of (focusCheck V2 decibel_box
                          (set_clickedInside false typing_minus))) = false
  /\ isEditing (state_of (focusCheck V2 decibel_box
                           (set_clickedInside false typing_minus))) = false.
Proof.
  assert (Hfoc : hasFocus typing_minus = true) by exact (proj1 typing_minus_facts).
  assert (Hed : isEditing typing_minus = true)
    by exact (proj1 (proj2 typing_minus_facts)).
  assert (Hclk : clickedInside (set_clickedInside false typing_minus) = false).
  { destruct typing_minus. reflexivity. }
  split; [repeat split; assumption|].
  split.
  - rewrite (proj1 (proj2 (C7_focus V2 decibel_box typing_minus)) 0 0 Hfoc).
    reflexivity.
  - destruct (proj1 (proj2 (proj2
        (C7_focus V2 decibel_box (set_clickedInside false typing_minus)))) Hclk)
      as (Hlost & Hclosed & _).
    split; assumption.
Defined.

(** When the local pointer-down did set [clickedInside], the check keeps
    the focus and only clears the flag. *)
Lemma focusCheck_clicked_inside v box s :
  clickedInside s = true ->
  focusCheck v box s = (tt, set_clickedInside false s, []).
Proof.
  destruct s as [cv lo hi ini just act ns fs txt out drag dy dv ly co ed buf foc cur clk].
  cbn [clickedInside]. intros ->. reflexivity.
Qed.

(** ** Justification *)

Lemma scan_args_matches args found :
  scan_args args found = found ++ matches args.
Proof.
  revert found. induction args as [|a rest IH]; intros found; cbn [scan_args matches].
  - rewrite app_nil_r. reflexivity.
  - unfold justification_of.
    destruct (toLowerCase a =? "left")%string eqn:Eleft.
    + cbn [orb]. apply String.eqb_eq in Eleft. rewrite Eleft.
      change ("left" =? "center")%string with false. cbv iota.
      rewrite IH, <- app_assoc. reflexivity.
    + destruct (toLowerCase a =? "centre")%string eqn:Ecentre.
      * cbn [orb]. apply String.eqb_eq in Ecentre. rewrite Ecentre.
        change ("centre" =? "center")%string with false. cbv iota.
        rewrite IH, <- app_assoc. reflexivity.
      * destruct (toLowerCase a =? "center")%string eqn:Ecenter.
        -- cbn [orb]. rewrite IH, <- app_assoc. reflexivity.
        -- destruct (toLowerCase a =? "right")%string eqn:Eright.
           ++ cbn [orb]. apply String.eqb_eq in Eright. rewrite Eright.
              rewrite IH, <- app_assoc. reflexivity.
           ++ cbn [orb]. apply IH.
Qed.

Lemma matches_named args j :
  In j (matches args) -> j = "left"%string \/ j = "centre"%string \/ j = "right"%string.
Proof.
  induction args as [|a rest IH]; cbn [matches]; [intros []|].
  unfold justification_of.
  destruct (toLowerCase a =? "left")%string;
    [intros [<-|H]; auto|].
  destruct ((toLowerCase a =? "centre") || (toLowerCase a =? "center"))%string;
    [intros [<-|H]; auto|].
  destruct (toLowerCase a =? "right")%string;
    [intros [<-|H]; auto|].
  exact IH.
Qed.

(** C9.  [parseJustificationArgs] reads the jsarguments without regard to
    case for ["left"], ["centre"] or ["center"], and ["right"].  Exactly one
    match sets that justification, ["center"] being stored as ["centre"];
    more than one match gives ["centre"], and so does none.  The arguments
    [["left", "right"]] give ["centre"]. *)
Theorem C9_justification (box : box_attrs) (s : numbox) :
  let found := matches (getJSArguments box) in
  let s' := state_of (parseJustificationArgs box s) in
  (forall j, In j found -> j = "left"%string \/ j = "centre"%string \/ j = "right"%string) /\
  (forall j, found = [j] -> textJustification s' = j) /\
  ((1 < List.length found)%nat -> textJustification s' = "centre"%string) /\
  (found = [] -> textJustification s' = "centre"%string) /\
  (jsarguments box = ArgsArray ["left"; "right"]%string ->
   textJustification s' = "centre"%string) /\
  (jsarguments box = ArgsArray ["Center"]%string ->
   textJustification s' = "centre"%string) /\
  (jsarguments box = ArgsString "RIGHT"%string ->
   textJustification s' = "right"%string).
Proof.
  intros found s'.
  assert (Hrun : textJustification s' =
                 match found with [j] => j | _ => "centre"%string end).
  { unfold s', found, parseJustificationArgs.
    rewrite scan_args_matches. cbn [app].
    destruct s as [cv lo hi ini just act ns fs txt out drag dy dv ly co ed buf foc cur clk].
    destruct (matches (getJSArguments box)) as [|j [|j' more]]; reflexivity. }
  split; [intros j; apply matches_named|].
  split; [intros j Hone; rewrite Hrun, Hone; reflexivity|].
  split.
  { intros Hmany. rewrite Hrun.
    destruct found as [|j [|j' more]]; try reflexivity.
    cbn in Hmany. exfalso. exact (Nat.lt_irrefl _ Hmany). }
  split; [intros Hnone; rewrite Hrun, Hnone; reflexivity|].
  unfold found in Hrun. unfold getJSArguments in Hrun.
  split; [|split]; intros Hargs; rewrite Hargs in Hrun; exact Hrun.
Qed.

Lemma C9_justification_witness :
  (jsarguments (box_with_args (ArgsArray ["left"; "right"]%string))
   = ArgsArray ["left"; "right"]%string)
  /\ textJustification
      (state_of (parseJustificationArgs
                   (box_with_args (ArgsArray ["left"; "right"]%string))
                   (set_textJustification "left" (initial V2))))
    = "centre"%string.
Proof.
  split; [reflexivity|].
  exact (proj1 (proj2 (proj2 (proj2 (proj2
    (C9_justification (box_with_args (ArgsArray ["left"; "right"]%string))
       (set_textJustification "left" (initial V2)))))))
    eq_refl).
Defined.

(** ** Restoring the saved state *)

(** C10.  [restoreInternalState] assigns [currentValue], [minValue],
    [maxValue], [initialValue], [textJustification] and [activeState] from
    the record's fields as they are: the value is not clamped into the
    stored range, so a stored value outside it is restored as stored, and
    nothing is sent to the primary outlet.  The record [save] embeds
    restores the six globals it was taken from. *)
Theorem C10_restore_verbatim
    (v : variant) (box : box_attrs) (s : numbox)
    (value min max initial : R) (justification : string) (active : Z) :
  let res := restoreInternalState v box value min max initial justification active s in
  let s' := state_of res in
  currentValue s' = value /\
  minValue s' = min /\
  maxValue s' = max /\
  initialValue s' = initial /\
  textJustification s' = justification /\
  activeState s' = active /\
  outlet0 (trace_of res) = [] /\
  (value < min \/ max < value -> currentValue s' = value) /\
  save (state_of (restore v box (save s) s)) = save s.
Proof.
  destruct s as [cv lo hi ini just act ns fs txt out drag dy dv ly co ed buf foc cur clk].
  crunch. repeat split; reflexivity.
Qed.

Lemma C10_restore_verbatim_witness :
  (50 < 0 \/ 10 < 50)
  /\ currentValue
      (state_of (restoreInternalState V2 plain_box 50 0 10 0 "centre" 1 (initial V2)))
    = 50.
Proof.
  assert (H : 50 < 0 \/ 10 < 50) by (right; lra).
  split; [exact H|].
  exact (proj1 (proj2 (proj2 (proj2 (proj2 (proj2 (proj2 (proj2
    (C10_restore_verbatim V2 plain_box (initial V2) 50 0 10 0 "centre" 1)))))))) H).
Defined.

(** ** The widget as a whole *)

(** *** Reading the tests of [keyInput] *)

Lemma numeric_key_tests c :
  isNumericKey c = true ->
  isValidChar c = true /\
  (c =? 30)%Z = false /\ (c =? 31)%Z = false /\ (c =? 127)%Z = false /\
  (c =? 13)%Z = false /\ (c =? 3)%Z = false /\ (c =? 27)%Z = false.
Proof.
  unfold isNumericKey, isValidChar. intros H. rewrite H. cbn [orb].
  apply orb_true_iff in H. destruct H as [H|H].
  - apply orb_true_iff in H. destruct H as [H|H].
    + apply andb_true_iff in H. destruct H as [H1 H2].
      apply Z.leb_le in H1. apply Z.leb_le in H2.
      repeat split; try reflexivity; apply Z.eqb_neq; intros ->;
        (apply (Z.lt_irrefl 48); eapply Z.le_lt_trans; [exact H1|reflexivity])
        || (apply (Z.lt_irrefl 57); eapply Z.lt_le_trans; [|exact H2]; reflexivity).
    + apply Z.eqb_eq in H. subst c. repeat split; reflexivity.
  - apply Z.eqb_eq in H. subst c. repeat split; reflexivity.
Qed.

Lemma other_key_valid c :
  isNumericKey c = false ->
  isValidChar c = ((c =? 127) || (c =? 13) || (c =? 3) || (c =? 27))%Z.
Proof. unfold isNumericKey, isValidChar. intros ->. reflexivity. Qed.

Ltac fixed_key c E :=
  apply Z.eqb_eq in E; subst c;
  cbv beta iota delta [Z.eqb Pos.eqb andb orb negb].

(** The key code is split into its classes (a digit, point or minus; the two
    arrows; backspace; the two enters; escape; any other) and the tests are
    rewritten. *)
Ltac key_case c k :=
  let E := fresh "Hkey" in
  destruct (c =? k)%Z eqn:E; [fixed_key c E|].

Ltac key_cases c :=
  let Hnum := fresh "Hnum" in
  destruct (isNumericKey c) eqn:Hnum;
  [ let H1 := fresh in let H2 := fresh in let H3 := fresh in let H4 := fresh in
    let H5 := fresh in let H6 := fresh in let H7 := fresh in
    destruct (numeric_key_tests c Hnum) as (H1 & H2 & H3 & H4 & H5 & H6 & H7);
    rewrite ?H1, ?H2, ?H3, ?H4, ?H5, ?H6, ?H7; clear H1 H2 H3 H4 H5 H6 H7
  | rewrite (other_key_valid c Hnum);
    key_case c 30%Z;
    [ | key_case c 31%Z;
    [ | key_case c 127%Z;
    [ | key_case c 13%Z;
    [ | key_case c 3%Z;
    [ | key_case c 27%Z ]]]]] ];
  cbn [andb orb negb].

(** The symbolic run, splitting on the flags and the parse as well. *)
Ltac split_more :=
  first
    [ match goal with
      | |- context [(?a =? ?b)%Z] =>
          let r := eval cbv in (a =? b)%Z in
          lazymatch r with
          | true => change (a =? b)%Z with true
          | false => change (a =? b)%Z with false
          end
      end
    | split_test
    | match goal with
      | |- context [match parseFloat ?b with _ => _ end] =>
          reduced b; destruct (parseFloat b)
      | |- context [if ?b then _ else _] => is_var b; destruct b
      | |- context [if (0 <? String.length ?b)%nat then _ else _] =>
          reduced b; destruct (0 <? String.length b)%nat eqn:?
      | |- context [andb ?a _] => is_var a; destruct a; cbn [andb]
      | |- context [match _parameter_type ?b with _ => _ end] =>
          destruct (_parameter_type b) as [[|?|?]|]
      | |- context [if gtb ?a ?b then _ else _] =>
          reduced a; destruct (gtb a b) eqn:?
      | |- context [(?a =? 0)%Z] =>
          is_var a; destruct (a =? 0)%Z eqn:?; cbn [andb]
      | |- context [(?a =? ?b)%string] =>
          is_var a; destruct (a =? b)%string eqn:?; cbn [orb]
      | |- context [scan_args ?a ?b] =>
          destruct (scan_args a b) as [|? [|? ?]];
          cbn [List.length Nat.ltb Nat.leb Nat.eqb hd]
      end ].

Ltac unfold_more :=
  cbv beta iota delta
    [handle onresize unclamped is_active_message focus_message
     sets_active_state reset_value parseJustificationArgs].

Ltac crunch_more := repeat first [progress (unfold_more; run) | split_more].

Ltac open_state s :=
  destruct s as [cv lo hi ini just act ns fs txt out drag dy dv ly co ed buf foc cur clk].

(** *** The edit buffer's alphabet *)

Lemma edit_chars_app a b :
  edit_chars (a ++ b) = edit_chars a && edit_chars b.
Proof.
  induction a as [|c a IH]; cbn [append edit_chars]; [reflexivity|].
  rewrite IH, andb_assoc. reflexivity.
Qed.

Lemma edit_chars_substring n s :
  edit_chars s = true -> edit_chars (substring 0 n s) = true.
Proof.
  revert n. induction s as [|c s IH]; intros n H.
  - destruct n; reflexivity.
  - destruct n; [reflexivity|]. cbn [substring edit_chars] in *.
    apply andb_true_iff in H. destruct H as [Hc Hs].
    rewrite Hc, (IH n Hs). reflexivity.
Qed.

Lemma edit_chars_slice s :
  edit_chars s = true -> edit_chars (slice_init s) = true.
Proof. apply edit_chars_substring. Qed.

Lemma edit_chars_key c :
  isNumericKey c = true -> edit_chars (fromCharCode c) = true.
Proof.
  unfold isNumericKey, fromCharCode, edit_chars, edit_char. intros H.
  rewrite andb_true_r.
  assert (Hc : (45 <= c <= 57)%Z).
  { apply orb_true_iff in H. destruct H as [H|H];
      [apply orb_true_iff in H; destruct H as [H|H]|].
    - apply andb_true_iff in H. destruct H as [H1 H2].
      apply Z.leb_le in H1. apply Z.leb_le in H2. lia.
    - apply Z.eqb_eq in H. lia.
    - apply Z.eqb_eq in H. lia. }
  rewrite N_ascii_embedding by lia.
  rewrite <- H. 
  replace (48 <=? Z.to_N c)%N with (48 <=? c)%Z
    by (destruct (48 <=? c)%Z eqn:E1, (48 <=? Z.to_N c)%N eqn:E2; try reflexivity;
        [apply Z.leb_le in E1; apply N.leb_gt in E2|
         apply Z.leb_gt in E1; apply N.leb_le in E2]; lia).
  replace (Z.to_N c <=? 57)%N with (c <=? 57)%Z
    by (destruct (c <=? 57)%Z eqn:E1, (Z.to_N c <=? 57)%N eqn:E2; try reflexivity;
        [apply Z.leb_le in E1; apply N.leb_gt in E2|
         apply Z.leb_gt in E1; apply N.leb_le in E2]; lia).
  replace (Z.to_N c =? 46)%N with (c =? 46)%Z
    by (destruct (c =? 46)%Z eqn:E1, (Z.to_N c =? 46)%N eqn:E2; try reflexivity;
        [apply Z.eqb_eq in E1; apply N.eqb_neq in E2|
         apply Z.eqb_neq in E1; apply N.eqb_eq in E2]; lia).
  replace (Z.to_N c =? 45)%N with (c =? 45)%Z
    by (destruct (c =? 45)%Z eqn:E1, (Z.to_N c =? 45)%N eqn:E2; try reflexivity;
        [apply Z.eqb_eq in E1; apply N.eqb_neq in E2|
         apply Z.eqb_neq in E1; apply N.eqb_eq in E2]; lia).
  reflexivity.
Qed.

(** *** What every message keeps *)

Ltac in_range :=
  first
    [ assumption
    | apply clamp_within; assumption
    | match goal with
      | H : strict_neq (Math_max ?a (Math_min ?b ?x)) ?x = false |- ?a <= ?x <= ?b =>
          apply strict_neq_false in H; rewrite <- H; apply clamp_within; assumption
      end ].

Ltac settle :=
  (split; [|split; [|split; [|split; [|split; [|split]]]]]); intros;
  first [ reflexivity | assumption | discriminate | congruence
        | in_range
        | match goal with H : ?a <= _ <= ?b |- _ => assert (a <= b) by lra end; in_range
        | rewrite ?edit_chars_app; rewrite ?edit_chars_key by assumption;
          rewrite ?edit_chars_slice by assumption;
          first [reflexivity | assumption | rewrite andb_true_r; assumption]
        | auto ].

Lemma handle_facts_other v box i s :
  (forall c, i <> In_keyInput c) ->
  step_facts v box i s (handle v box i s).
Proof.
  intros Hkey. open_state s.
  unfold step_facts, range_ordered, value_in_range, in_sync, edit_has_focus.
  destruct i; try (exfalso; eapply Hkey; reflexivity); clear Hkey;
    try match goal with r : saved_state |- _ => destruct r end.
  all: crunch_more.
  all: solve [settle].
Qed.

Lemma handle_facts_key v box c s :
  step_facts v box (In_keyInput c) s (handle v box (In_keyInput c) s).
Proof.
  open_state s.
  unfold step_facts, range_ordered, value_in_range, in_sync, edit_has_focus.
  cbn [handle]. unfold keyInput. key_cases c; crunch_more.
  all: solve [settle].
Qed.

Lemma handle_facts v box i s : step_facts v box i s (handle v box i s).
Proof.
  destruct i; try (apply handle_facts_other; intros c; discriminate).
  apply handle_facts_key.
Qed.

(** *** Runs *)

Lemma play_all_state v st rest s :
  state_of (play_all v (st :: rest) s) =
  state_of (play_all v rest (state_of (handle v (fst st) (snd st) s))).
Proof.
  destruct st as [box i]. cbn [play_all fst snd]. unfold bind, state_of.
  destruct (handle v box i s) as [[u s1] e1]. cbn [fst snd].
  destruct (play_all v rest s1) as [[u2 s2] e2]. reflexivity.
Qed.

Lemma play_all_trace v st rest s :
  trace_of (play_all v (st :: rest) s) =
  trace_of (handle v (fst st) (snd st) s)
    ++ trace_of (play_all v rest (state_of (handle v (fst st) (snd st) s))).
Proof.
  destruct st as [box i]. cbn [play_all fst snd]. unfold bind, state_of, trace_of.
  destruct (handle v box i s) as [[u s1] e1]. cbn [fst snd].
  destruct (play_all v rest s1) as [[u2 s2] e2]. reflexivity.
Qed.

Lemma play_all_app_state v steps more s :
  state_of (play_all v (steps ++ more) s) =
  state_of (play_all v more (state_of (play_all v steps s))).
Proof.
  revert s. induction steps as [|st rest IH]; intros s; [reflexivity|].
  rewrite <- app_comm_cons, !play_all_state. apply IH.
Qed.

Lemma play_all_app_trace v steps more s :
  trace_of (play_all v (steps ++ more) s) =
  trace_of (play_all v steps s)
    ++ trace_of (play_all v more (state_of (play_all v steps s))).
Proof.
  revert s. induction steps as [|st rest IH]; intros s; [reflexivity|].
  rewrite <- app_comm_cons, !play_all_trace, play_all_state, IH, app_assoc.
  reflexivity.
Qed.

Lemma outlet0_app a b : outlet0 (a ++ b) = outlet0 a ++ outlet0 b.
Proof.
  induction a as [|e a IH]; [reflexivity|].
  destruct e; cbn [app outlet0]; rewrite IH; reflexivity.
Qed.

(** X1.  Over any run of messages other than a reset and a restore, with
    every range the box shows in order, a current value that lies within
    the cached bounds stays within them. *)
Theorem value_stays_in_range (v : variant) (steps : list (box_attrs * input)) (s : numbox) :
  value_in_range s ->
  Forall (fun st => range_ordered (fst st) /\ unclamped (snd st) = false) steps ->
  value_in_range (state_of (play_all v steps s)).
Proof.
  intros Hs Hsteps. revert s Hs.
  induction Hsteps as [|st rest [Hbox Hi] _ IH]; intros s Hs; [exact Hs|].
  rewrite play_all_state. apply IH.
  exact (proj1 (handle_facts v (fst st) (snd st) s) Hbox Hi Hs).
Qed.

Lemma value_stays_in_range_witness :
  (value_in_range (initial V2)
   /\ Forall (fun st => range_ordered (fst st) /\ unclamped (snd st) = false)
        [(box_with_range [0; 10], In_msg_float 50);
         (box_with_range [0; 10], In_keyInput 30)])
  /\ value_in_range
       (state_of (play_all V2
          [(box_with_range [0; 10], In_msg_float 50);
           (box_with_range [0; 10], In_keyInput 30)] (initial V2))).
Proof.
  assert (Hs : value_in_range (initial V2)).
  { unfold value_in_range. cbn. lra. }
  assert (Hsteps : Forall (fun st => range_ordered (fst st) /\ unclamped (snd st) = false)
                     [(box_with_range [0; 10], In_msg_float 50);
                      (box_with_range [0; 10], In_keyInput 30)]).
  { repeat constructor; unfold range_ordered; cbn; lra. }
  split; [split; assumption|].
  exact (value_stays_in_range V2 _ (initial V2) Hs Hsteps).
Defined.

Lemma sets_active_state_active i :
  sets_active_state i = false -> is_active_message i = false.
Proof. destruct i; cbn; congruence. Qed.

(** X2.  While the widget is inactive, no run of messages sends anything to
    the primary outlet, and the widget stays inactive, unless the run
    contains an [active] message or a restore. *)
Theorem inactive_widget_is_silent
    (v : variant) (steps : list (box_attrs * input)) (s : numbox) :
  truthy (activeState s) = false ->
  Forall (fun st => sets_active_state (snd st) = false) steps ->
  outlet0 (trace_of (play_all v steps s)) = [] /\
  activeState (state_of (play_all v steps s)) = activeState s.
Proof.
  intros Hs Hsteps. revert s Hs.
  induction Hsteps as [|st rest Hi _ IH]; intros s Hs; [split; reflexivity|].
  destruct (handle_facts v (fst st) (snd st) s)
    as (_ & _ & _ & Hquiet & _ & _ & Hact).
  specialize (Hquiet (sets_active_state_active _ Hi) Hs).
  specialize (Hact Hi).
  rewrite play_all_state, play_all_trace, outlet0_app, Hquiet.
  destruct (IH (state_of (handle v (fst st) (snd st) s))) as [Hout Hkeep].
  { rewrite Hact. exact Hs. }
  rewrite Hout, Hkeep, Hact. split; reflexivity.
Qed.

Lemma inactive_widget_is_silent_witness :
  (truthy (activeState (set_activeState 0 (initial V2))) = false
   /\ Forall (fun st => sets_active_state (snd st) = false)
        [(box_with_range [0; 10], In_msg_float 50);
         (box_with_range [0; 10], In_ondblclick 0 0 true false false false false false)])
  /\ outlet0 (trace_of (play_all V2
        [(box_with_range [0; 10], In_msg_float 50);
         (box_with_range [0; 10], In_ondblclick 0 0 true false false false false false)]
        (set_activeState 0 (initial V2)))) = [].
Proof.
  assert (Hs : truthy (activeState (set_activeState 0 (initial V2))) = false)
    by reflexivity.
  assert (Hsteps : Forall (fun st => sets_active_state (snd st) = false)
        [(box_with_range [0; 10], In_msg_float 50);
         (box_with_range [0; 10], In_ondblclick 0 0 true false false false false false)]).
  { repeat constructor. }
  split; [split; assumption|].
  exact (proj1 (inactive_widget_is_silent V2 _ _ Hs Hsteps)).
Defined.

Lemma truthy_false z : truthy z = false -> z = 0%Z.
Proof.
  unfold truthy. intros H. apply negb_false_iff in H. apply Z.eqb_eq in H. exact H.
Qed.

(** X3.  What an inactive widget withheld is delivered on reactivation: after
    any run of messages received while inactive, an [active] message with a
    true argument sends exactly one value to the primary outlet, the
    [outputValue] the run has left, and the widget is active. *)
Theorem reactivation_sends_current_output
    (v : variant) (steps : list (box_attrs * input)) (box : box_attrs)
    (state : Z) (s : numbox) :
  truthy (activeState s) = false ->
  Forall (fun st => sets_active_state (snd st) = false) steps ->
  truthy state = true ->
  outlet0 (trace_of (play_all v (steps ++ [(box, In_active state)]) s)) =
    [outputValue (state_of (play_all v steps s))] /\
  activeState (state_of (play_all v (steps ++ [(box, In_active state)]) s)) = 1%Z /\
  outputValue (state_of (play_all v (steps ++ [(box, In_active state)]) s)) =
    outputValue (state_of (play_all v steps s)).
Proof.
  intros Hs Hsteps Hstate.
  destruct (inactive_widget_is_silent v steps s Hs Hsteps) as [Hout Hkeep].
  rewrite play_all_app_trace, play_all_app_state, outlet0_app, Hout.
  assert (Hzero : activeState (state_of (play_all v steps s)) = 0%Z).
  { rewrite Hkeep. apply truthy_false. exact Hs. }
  destruct (state_of (play_all v steps s))
    as [cv lo hi ini just act ns fs txt out drag dy dv ly co ed buf foc cur clk].
  cbn [activeState] in Hzero. subst act.
  cbn [play_all handle]. unfold active. rewrite Hstate. run.
  repeat split; reflexivity.
Qed.

Lemma reactivation_sends_current_output_witness :
  (truthy (activeState (set_activeState 0 (initial V1))) = false
   /\ Forall (fun st => sets_active_state (snd st) = false)
        [(box_with_range [0; 10], In_msg_float 50)]
   /\ truthy 1 = true)
  /\ outlet0 (trace_of (play_all V1
        ([(box_with_range [0; 10], In_msg_float 50)]
           ++ [(box_with_range [0; 10], In_active 1)])
        (set_activeState 0 (initial V1)))) =
     [outputValue (state_of (play_all V1 [(box_with_range [0; 10], In_msg_float 50)]
                               (set_activeState 0 (initial V1))))].
Proof.
  assert (Hs : truthy (activeState (set_activeState 0 (initial V1))) = false)
    by reflexivity.
  assert (Hsteps : Forall (fun st => sets_active_state (snd st) = false)
                     [(box_with_range [0; 10], In_msg_float 50)]).
  { repeat constructor. }
  split; [repeat split; assumption|].
  exact (proj1 (reactivation_sends_current_output V1 _ (box_with_range [0; 10]) 1
                  _ Hs Hsteps eq_refl)).
Defined.

(** X4.  For a box whose attributes stay as they are, [outputValue] stays
    the value derived from [currentValue], the unit style and the edit flag
    over any run of messages. *)
Theorem output_stays_derived
    (v : variant) (box : box_attrs) (inputs : list input) (s : numbox) :
  in_sync v box s ->
  in_sync v box (state_of (play_all v (map (pair box) inputs) s)).
Proof.
  revert s. induction inputs as [|i rest IH]; intros s Hs; [exact Hs|].
  cbn [map]. rewrite play_all_state. apply IH.
  exact (proj1 (proj2 (handle_facts v box i s)) Hs).
Qed.

Lemma output_stays_derived_witness :
  in_sync V2 decibel_box typing_minus
  /\ in_sync V2 decibel_box
       (state_of (play_all V2 (map (pair decibel_box) [In_keyInput 13; In_msg_float (-90)])
                    typing_minus)).
Proof.
  assert (Hs : in_sync V2 decibel_box typing_minus).
  { destruct typing_minus_facts as (_ & Hed & _ & Hcv & Hout).
    unfold in_sync. rewrite Hed, Hout, Hcv. reflexivity. }
  split; [exact Hs|].
  exact (output_stays_derived V2 decibel_box _ typing_minus Hs).
Defined.

(** X5.  An edit session is only ever open while the widget has the focus:
    the property holds in the initial state and no message breaks it. *)
Theorem edit_session_has_focus
    (v : variant) (steps : list (box_attrs * input)) (s : numbox) :
  edit_has_focus s ->
  edit_has_focus (state_of (play_all v steps s)).
Proof.
  revert s. induction steps as [|st rest IH]; intros s Hs; [exact Hs|].
  rewrite play_all_state. apply IH.
  exact (proj1 (proj2 (proj2 (handle_facts v (fst st) (snd st) s))) Hs).
Qed.

Lemma edit_session_has_focus_witness :
  edit_has_focus (initial V2)
  /\ edit_has_focus
       (state_of (play_all V2
          [(plain_box, In_onclick 0 0 true false false false false false);
           (plain_box, In_keyInput 52);
           (plain_box, In_focusCheck)] (initial V2))).
Proof.
  assert (Hs : edit_has_focus (initial V2)).
  { unfold edit_has_focus. cbn. intros H. discriminate H. }
  split; [exact Hs|].
  exact (edit_session_has_focus V2 _ (initial V2) Hs).
Defined.

(** X6.  The edit buffer only ever holds digits, points and minus signs:
    no message lets another character in. *)
Theorem edit_buffer_alphabet
    (v : variant) (steps : list (box_attrs * input)) (s : numbox) :
  edit_chars (editText s) = true ->
  edit_chars (editText (state_of (play_all v steps s))) = true.
Proof.
  revert s. induction steps as [|st rest IH]; intros s Hs; [exact Hs|].
  rewrite play_all_state. apply IH.
  exact (proj1 (proj2 (proj2 (proj2 (proj2 (handle_facts v (fst st) (snd st) s))))) Hs).
Qed.

Lemma edit_buffer_alphabet_witness :
  edit_chars (editText focused) = true
  /\ edit_chars (editText (state_of (play_all V1
       (typed (box_with_range [0; 100]) [52; 97; 50; 127; 46]%Z) focused))) = true.
Proof.
  assert (Hs : edit_chars (editText focused) = true).
  { unfold focused, initial. play. reflexivity. }
  split; [exact Hs|].
  exact (edit_buffer_alphabet V1 _ focused Hs).
Defined.

(** X7.  The focus is moved by a pointer-down on the widget and by the
    deferred check of a global click, and by nothing else: over a run
    without these two, [hasFocus] is as it was. *)
Theorem focus_moves_only_by_click_or_check
    (v : variant) (steps : list (box_attrs * input)) (s : numbox) :
  Forall (fun st => focus_message (snd st) = false) steps ->
  hasFocus (state_of (play_all v steps s)) = hasFocus s.
Proof.
  intros Hsteps. revert s.
  induction Hsteps as [|st rest Hi _ IH]; intros s; [reflexivity|].
  rewrite play_all_state, IH.
  exact (proj1 (proj2 (proj2 (proj2 (proj2 (proj2
    (handle_facts v (fst st) (snd st) s)))))) Hi).
Qed.

Lemma focus_moves_only_by_click_or_check_witness :
  Forall (fun st => focus_message (snd st) = false)
    [(plain_box, In_onidleout 0 0); (plain_box, In_globalMouse true 0 0);
     (plain_box, In_keyInput 27)]
  /\ hasFocus (state_of (play_all V2
       [(plain_box, In_onidleout 0 0); (plain_box, In_globalMouse true 0 0);
        (plain_box, In_keyInput 27)] typing_minus)) = hasFocus typing_minus.
Proof.
  assert (Hsteps : Forall (fun st => focus_message (snd st) = false)
    [(plain_box, In_onidleout 0 0); (plain_box, In_globalMouse true 0 0);
     (plain_box, In_keyInput 27)]).
  { repeat constructor. }
  split; [exact Hsteps|].
  exact (focus_moves_only_by_click_or_check V2 _ typing_minus Hsteps).
Defined.

(** *** Keys *)

(** X8.  Keys the widget ignores: without the focus every key; with the
    focus every key that is neither valid nor (in [V2]) an arrow; and,
    outside an edit session, backspace, the two enters and escape.  The
    globals are as before and no host call is made. *)
Theorem ignored_keys (v : variant) (box : box_attrs) (c : Z) (s : numbox) :
  (hasFocus s = false -> keyInput v box c s = (tt, s, [])) /\
  (isValidChar c = false -> (v = V1 \/ (c <> 30 /\ c <> 31)%Z) ->
   keyInput v box c s = (tt, s, [])) /\
  (isEditing s = false -> (c = 127 \/ c = 13 \/ c = 3 \/ c = 27)%Z ->
   keyInput v box c s = (tt, s, [])).
Proof.
  open_state s. cbn [hasFocus isEditing]. split; [|split].
  - intros ->. reflexivity.
  - intros Hc Hv. unfold keyInput. rewrite Hc.
    destruct Hv as [Hv|[H30 H31]].
    + subst v. destruct foc; reflexivity.
    + apply Z.eqb_neq in H30. apply Z.eqb_neq in H31. rewrite H30, H31.
      destruct foc, v; reflexivity.
  - intros -> Hc. unfold keyInput.
    destruct Hc as [Hc|[Hc|[Hc|Hc]]]; subst c; destruct foc, v; reflexivity.
Qed.

Lemma ignored_keys_witness :
  (hasFocus (initial V2) = false /\ isValidChar 97 = false
   /\ (V2 = V1 \/ (97 <> 30 /\ 97 <> 31)%Z))
  /\ keyInput V2 plain_box 52 (initial V2) = (tt, initial V2, [])
  /\ keyInput V2 plain_box 97 typing_minus = (tt, typing_minus, []).
Proof.
  assert (H : (V2 = V1 \/ (97 <> 30 /\ 97 <> 31)%Z)).
  { right. split; intros E; discriminate E. }
  split; [repeat split; try reflexivity; exact H|].
  split.
  - exact (proj1 (ignored_keys V2 plain_box 52 (initial V2)) eq_refl).
  - exact (proj1 (proj2 (ignored_keys V2 plain_box 97 typing_minus)) eq_refl H).
Defined.

Lemma substring_all s : substring 0 (String.length s) s = s.
Proof.
  induction s as [|c s IH]; [reflexivity|].
  cbn [String.length substring]. rewrite IH. reflexivity.
Qed.

Lemma slice_init_app buf c :
  slice_init (buf ++ String c EmptyString) = buf.
Proof.
  unfold slice_init. induction buf as [|b buf IH]; [reflexivity|].
  cbn [append String.length]. rewrite Nat.sub_succ, Nat.sub_0_r.
  destruct (String.length (buf ++ String c EmptyString)) as [|n] eqn:E.
  - destruct buf; discriminate E.
  - cbn [substring]. rewrite Nat.sub_succ, Nat.sub_0_r in IH.
    rewrite IH. reflexivity.
Qed.

Lemma length_app_key buf c :
  (0 <? String.length (buf ++ fromCharCode c))%nat = true.
Proof.
  unfold fromCharCode. induction buf as [|b buf IH]; reflexivity.
Qed.

(** X9.  Backspace takes back the last key: in an open edit session whose
    display shows the buffer, a digit, point or minus followed by backspace
    leaves every global as it was, and sends nothing to the primary
    outlet. *)
Theorem backspace_undoes_key (v : variant) (box : box_attrs) (c : Z) (s : numbox) :
  hasFocus s = true ->
  isEditing s = true ->
  isNumericKey c = true ->
  displayText s = editText s ->
  outputValue s = currentValue s ->
  state_of (keyInput v box 127 (state_of (keyInput v box c s))) = s /\
  outlet0 (trace_of (keyInput v box c s)) = [] /\
  outlet0 (trace_of (keyInput v box 127 (state_of (keyInput v box c s)))) = [].
Proof.
  open_state s. cbn [hasFocus isEditing displayText editText outputValue currentValue].
  intros -> -> Hnum -> ->.
  assert (E1 : keyInput v box c
                 (Build_numbox cv lo hi ini just act ns fs buf cv drag dy dv ly co true buf
                    true cur clk) =
               (tt,
                Build_numbox cv lo hi ini just act ns fs (buf ++ fromCharCode c) cv
                  drag dy dv ly co true (buf ++ fromCharCode c) true cur clk,
                [Redraw])).
  { unfold keyInput.
    destruct (numeric_key_tests c Hnum) as (-> & -> & -> & -> & -> & -> & ->).
    rewrite Hnum. destruct v; reflexivity. }
  rewrite E1. cbn [state_of trace_of fst snd outlet0].
  unfold keyInput. cbn [hasFocus negb]. key_tests.
  destruct v; run; rewrite length_app_key; run;
    unfold fromCharCode; rewrite slice_init_app; repeat split; reflexivity.
Qed.

Lemma backspace_undoes_key_witness :
  (hasFocus (set_displayText "4" (set_editText "4" (set_isEditing true
       (set_hasFocus true (initial V1))))) = true
   /\ isEditing (set_displayText "4" (set_editText "4" (set_isEditing true
       (set_hasFocus true (initial V1))))) = true
   /\ isNumericKey 50 = true)
  /\ state_of (keyInput V1 plain_box 127
       (state_of (keyInput V1 plain_box 50
          (set_displayText "4" (set_editText "4" (set_isEditing true
             (set_hasFocus true (initial V1))))))))
     = set_displayText "4" (set_editText "4" (set_isEditing true
         (set_hasFocus true (initial V1)))).
Proof.
  split; [repeat split; reflexivity|].
  exact (proj1 (backspace_undoes_key V1 plain_box 50
                  (set_displayText "4" (set_editText "4" (set_isEditing true
                     (set_hasFocus true (initial V1)))))
                  eq_refl eq_refl eq_refl eq_refl eq_refl)).
Defined.
